(** * StockAlert: stock-status and forecasting engine

    A shallow embedding of [src/services/forecaster.py] and
    [src/services/monitor.py] together with the properties of the
    forecasting and alert-generation code, followed by the code around
    them: the batch logic of [src/services/twilio_notifier.py] and
    [src/services/slack_notifier.py], the endpoints of [src/api/] that
    filter and count stock levels and alerts, and the two jobs of
    [src/scheduler/jobs.py].  The point-of-sale provider, the SMS client
    and the webhook are parameters: a provider is a record of functions,
    and the outcome of the n-th request is given by a function of n.

    Numbers.  Python [int] values are modelled by [Z].  Python [float]
    values are modelled by exact rationals [Q]: every arithmetic step
    ([+], [-], [*], [/], [//], comparisons, [int], [round]) is the exact
    operation, so the development describes the code up to binary64
    rounding.  Rational results are compared with [==] ([Qeq]).  Where
    binary64 rounding is observable in a stated property, the code is
    additionally evaluated on IEEE-754 doubles in [Module Binary64]: the
    percentage [(current_stock / max_stock) * 100], the velocity with its
    [round(velocity, 2)], and the stockout projection
    [int(current_stock / velocity)]. *)

From Stdlib Require Import ZArith QArith Qround Qabs Qminmax Lia Lqa List String Bool.
From Stdlib Require Import Uint63 PrimFloat SpecFloat FloatOps.
From Stdlib Require Import Ascii DecimalString.
Import ListNotations.

Local Open Scope string_scope.
Local Open Scope list_scope.
Local Open Scope Z_scope.
Local Open Scope Q_scope.

(** ** Python numeric primitives on exact rationals *)

Module Py.

(** [a < b] on floats. *)
Definition Qltb (a b : Q) : bool := negb (Qle_bool b a).

(** [int(x)] for a float [x]: truncation toward zero. *)
Definition int (x : Q) : Z := Z.quot (Qnum x) (Zpos (Qden x)).

(** [a // b]: floor division, the result kept as a number. *)
Definition floordiv (a b : Q) : Q := inject_Z (Qfloor (a / b)).

(** Nearest integer, ties to the even neighbour. *)
Definition round_half_even (x : Q) : Z :=
  let f := Qfloor x in
  let r := x - inject_Z f in
  if Qltb r (1 # 2) then f
  else if Qltb (1 # 2) r then (f + 1)%Z
       else if Z.even f then f else (f + 1)%Z.

(** [round(x, ndigits)] for a float [x]. *)
Definition round (x : Q) (ndigits : nat) : Q :=
  let scale := Z.pow 10 (Z.of_nat ndigits) in
  Qred (Qmake (round_half_even (x * inject_Z scale)) (Z.to_pos scale)).

(** [abs(x)]. *)
Definition abs (x : Q) : Q := Qabs x.

End Py.

(** ** Sales history ([List[Dict[str, Any]]]) *)

(** The ["quantity"] entry of a line item: absent (the [.get] default 0 is
    used), a value [float()] accepts, or a value [float()] rejects. *)
Inductive quantity_field : Type :=
| QtyAbsent
| QtyNumber (q : Q)
| QtyMalformed.

Record line_item : Type := mk_line_item {
  li_catalog_object_id : option string;   (* [.get("catalog_object_id")] *)
  li_quantity : quantity_field            (* [.get("quantity", 0)] *)
}.

Record order : Type := mk_order {
  order_id : string;
  order_created_at : string;
  order_line_items : list line_item       (* [.get("line_items", [])] *)
}.

(** [float(line_item.get("quantity", 0))]; [None] stands for the raised
    exception. *)
Definition float_of_quantity (f : quantity_field) : option Q :=
  match f with
  | QtyAbsent => Some 0
  | QtyNumber q => Some q
  | QtyMalformed => None
  end.

(** [line_item.get("catalog_object_id") == product_id] *)
Definition id_matches (product_id : string) (li : line_item) : bool :=
  match li_catalog_object_id li with
  | Some i => String.eqb i product_id
  | None => false
  end.

(** ** forecaster.py: [ForecasterService] *)

Module ForecasterService.

(** One iteration of the inner loop of [calculate_velocity]; the
    accumulator is [None] once an exception has been raised. *)
Definition velocity_line_step (product_id : string)
    (total_units : option Q) (li : line_item) : option Q :=
  match total_units with
  | None => None
  | Some t =>
      if id_matches product_id li then
        match float_of_quantity (li_quantity li) with
        | Some quantity => Some (t + quantity)
        | None => None
        end
      else Some t
  end.

(** One iteration of the outer loop. *)
Definition velocity_order_step (product_id : string)
    (total_units : option Q) (o : order) : option Q :=
  fold_left (velocity_line_step product_id) (order_line_items o) total_units.

(** The two nested loops, started at [total_units = 0]. *)
Definition count_total_units (product_id : string)
    (sales_history : list order) : option Q :=
  fold_left (velocity_order_step product_id) sales_history (Some 0).

(** [calculate_velocity(product_id, sales_history, days)] *)
Definition calculate_velocity (product_id : string)
    (sales_history : list order) (days : Z) : Q :=
  match count_total_units product_id sales_history with
  | Some total_units =>
      let velocity :=
        if (0 <? days)%Z then total_units / inject_Z days else 0 in
      Py.round velocity 2
  | None => 0                      (* [except Exception: return 0.0] *)
  end.

(** [calculate_days_until_stockout(current_stock, velocity)] *)
Definition calculate_days_until_stockout (current_stock : Z) (velocity : Q)
    : option Z :=
  if Qle_bool velocity 0 then None
  else
    let days := inject_Z current_stock / velocity in
    Some (Py.int days).

(** [calculate_reorder_quantity(velocity, current_stock, max_stock,
    lead_time_days, safety_stock_days)] *)
Definition calculate_reorder_quantity (velocity : Q)
    (current_stock max_stock lead_time_days safety_stock_days : Z) : Z :=
  if Qle_bool velocity 0 then 0%Z
  else
    let total_days := (lead_time_days + safety_stock_days)%Z in
    let target_stock := velocity * inject_Z total_days in
    let reorder_quantity := target_stock - inject_Z current_stock in
    let reorder_quantity :=
      if Py.Qltb (inject_Z max_stock) (inject_Z current_stock + reorder_quantity)
      then inject_Z (max_stock - current_stock)
      else reorder_quantity in
    let reorder_quantity :=
      if Py.Qltb 0 reorder_quantity then
        if Qle_bool reorder_quantity 20
        then Py.floordiv (reorder_quantity + 4) 5 * 5
        else Py.floordiv (reorder_quantity + 9) 10 * 10
      else reorder_quantity in
    Z.max 0 (Py.int reorder_quantity).

(** Result of [detect_velocity_anomalies] when an anomaly is flagged. *)
Record anomaly : Type := mk_anomaly {
  an_product_id : string;
  an_recent_velocity : Q;
  an_baseline_velocity : Q;
  an_change_percentage : Q;
  an_direction : string
}.

(** [detect_velocity_anomalies(product_id, sales_history)] *)
Definition detect_velocity_anomalies (product_id : string)
    (sales_history : list order) : option anomaly :=
  let recent_velocity := calculate_velocity product_id sales_history 7 in
  let baseline_velocity := calculate_velocity product_id sales_history 30 in
  if Qeq_bool baseline_velocity 0 then None
  else
    let change_percentage :=
      ((recent_velocity - baseline_velocity) / baseline_velocity) * 100 in
    if Py.Qltb 50 (Py.abs change_percentage) then
      Some (mk_anomaly product_id recent_velocity baseline_velocity
              (Py.round change_percentage 1)
              (if Py.Qltb 0 change_percentage then "increase" else "decrease"))
    else None.

(** The dictionary returned by [calculate_optimal_stock_levels]. *)
Record optimal_levels : Type := mk_optimal_levels {
  opt_min_stock : Z;
  opt_max_stock : Z;
  opt_reorder_point : Z
}.

(** [calculate_optimal_stock_levels(velocity, lead_time_days,
    service_level)] *)
Definition calculate_optimal_stock_levels (velocity : Q)
    (lead_time_days : Z) (service_level : Q) : optimal_levels :=
  if Qle_bool velocity 0 then mk_optimal_levels 0 0 0
  else
    let safety_stock :=
      velocity * inject_Z lead_time_days * (1 - service_level) in
    let reorder_point := (velocity * inject_Z lead_time_days) + safety_stock in
    let min_stock := safety_stock in
    let max_stock := velocity * 30 in
    mk_optimal_levels (Py.int min_stock) (Py.int max_stock)
                      (Py.int reorder_point).

End ForecasterService.

(** ** models/alert.py *)

Inductive AlertType : Type :=
| LOW_STOCK
| CRITICAL_STOCK
| OUT_OF_STOCK
| REORDER_SUGGESTED
| VELOCITY_ANOMALY.

Inductive AlertSeverity : Type :=
| INFO
| WARNING
| CRITICAL.

(** The f-string of the [message] field, kept as template and arguments. *)
Inductive message_text : Type :=
| MsgOutOfStock (product_name : string)
| MsgCriticalLevel (product_name : string) (current_stock : Z) (stock_percentage : Q)
| MsgLowLevel (product_name : string) (current_stock : Z) (stock_percentage : Q)
| MsgRunOut (product_name : string) (days_until_stockout : Z).

(** The f-string of the [suggested_action] field; [None] is the default
    word used when the snapshot has no ["suggested_reorder_quantity"]. *)
Inductive action_text : Type :=
| ActUrgentReorder (quantity : option Z)
| ActReorderImmediately (quantity : option Z)
| ActConsiderReordering (quantity : option Z)
| ActReorderOptimal (quantity : Z).

Record AlertCreate : Type := mk_AlertCreate {
  product_id : string;
  location_id : string;
  alert_type : AlertType;
  severity : AlertSeverity;
  message : message_text;
  current_stock : Z;
  suggested_action : action_text
}.

(** ** Data exchanged with the point-of-sale provider (services/square.py) *)

Record inventory_count : Type := mk_inventory_count {
  inv_catalog_object_id : string;
  inv_location_id : string;
  inv_quantity : Q;
  inv_calculated_at : string
}.

Record catalog_item : Type := mk_catalog_item {
  cat_id : string;
  cat_name : string;
  cat_description : string;
  cat_category_id : string
}.

(** The three provider calls used by the monitor. *)
Record SquareService : Type := mk_SquareService {
  get_inventory_counts : string -> list inventory_count;
  get_catalog_items : string -> list catalog_item;
  get_sales_history : string -> Z -> list order
}.

(** ** The per-product stock dictionary built by [check_stock_levels]

    Keys read with [.get] by [generate_alerts] are optional. *)
Record stock_level : Type := mk_stock_level {
  sl_product_id : string;
  sl_product_name : string;
  sl_location_id : string;
  sl_current_stock : Z;
  sl_max_stock : Z;
  sl_stock_percentage : Q;
  sl_status : string;
  sl_velocity : option Q;
  sl_days_until_stockout : option Z;
  sl_suggested_reorder_quantity : option Z
}.

(** ** Exceptions *)

(** [ZeroDivisionError] is what Python's [/] raises on a zero divisor.
    [InvalidConfiguration] is the error kind named by the design
    document; no statement of the program raises it. *)
Inductive exn : Type :=
| ZeroDivisionError
| InvalidConfiguration.

Inductive result (A : Type) : Type :=
| Ok (a : A)
| Raise (e : exn).
Arguments Ok {A} a.
Arguments Raise {A} e.

Definition bind {A B : Type} (r : result A) (k : A -> result B) : result B :=
  match r with
  | Ok a => k a
  | Raise e => Raise e
  end.

Notation "x <- r ;; k" := (bind r (fun x => k))
  (at level 61, r at next level, right associativity).

(** [a / b] on two ints. *)
Definition true_div (a b : Z) : result Q :=
  if (b =? 0)%Z then Raise ZeroDivisionError
  else Ok (inject_Z a / inject_Z b).

(** ** monitor.py: [MonitorService] *)

Record MonitorService : Type := mk_MonitorService {
  square_service : SquareService;
  low_threshold : Z;
  critical_threshold : Z
}.

(** config.py: the default thresholds of [Settings]. *)
Definition default_low_stock_threshold_percentage : Z := 20.
Definition default_critical_stock_threshold_percentage : Z := 5.

Section Monitor.

Variable self : MonitorService.

(** [_determine_status(stock_percentage, current_stock)] *)
Definition _determine_status (stock_percentage : Q) (current_stock : Z)
    : string :=
  if (current_stock =? 0)%Z then "out_of_stock"
  else if Qle_bool stock_percentage (inject_Z (critical_threshold self))
       then "critical"
  else if Qle_bool stock_percentage (inject_Z (low_threshold self))
       then "low"
  else "healthy".

(** The body of the [for inv_item in inventory] loop of
    [check_stock_levels]. *)
Definition check_stock_levels_step (location_id : string)
    (catalog : list catalog_item) (sales_history : list order)
    (results : result (list stock_level)) (inv_item : inventory_count)
    : result (list stock_level) :=
  results <- results ;;
  match find (fun c => String.eqb (cat_id c) (inv_catalog_object_id inv_item))
             catalog with
  | None => Ok results                                   (* [continue] *)
  | Some catalog_item =>
      let velocity :=
        ForecasterService.calculate_velocity
          (inv_catalog_object_id inv_item) sales_history 30 in
      let current_stock := Py.int (inv_quantity inv_item) in
      let max_stock := 100%Z in
      ratio <- true_div current_stock max_stock ;;
      let stock_percentage := ratio * 100 in
      let status := _determine_status stock_percentage current_stock in
      let days_until_stockout :=
        if Py.Qltb 0 velocity
        then ForecasterService.calculate_days_until_stockout
               current_stock velocity
        else None in
      let suggested_reorder :=
        ForecasterService.calculate_reorder_quantity
          velocity current_stock max_stock 7 7 in
      Ok (results ++
          [mk_stock_level (inv_catalog_object_id inv_item)
             (cat_name catalog_item) location_id current_stock max_stock
             stock_percentage status (Some velocity) days_until_stockout
             (Some suggested_reorder)])
  end.

(** [check_stock_levels(location_id)] *)
Definition check_stock_levels (location_id : string)
    : result (list stock_level) :=
  let inventory := get_inventory_counts (square_service self) location_id in
  let catalog := get_catalog_items (square_service self) location_id in
  let sales_history :=
    get_sales_history (square_service self) location_id 30 in
  fold_left (check_stock_levels_step location_id catalog sales_history)
            inventory (Ok []).

(** The condition of the last [elif] of [generate_alerts]:
    [days_until_stockout and days_until_stockout <= 7 and
     stock.get("suggested_reorder_quantity", 0) > 0]; the first conjunct
    is Python truthiness, false for [None] and for [0]. *)
Definition reorder_condition (stock : stock_level) : bool :=
  match sl_days_until_stockout stock with
  | None => false
  | Some d =>
      negb (d =? 0)%Z && (d <=? 7)%Z &&
      (0 <? match sl_suggested_reorder_quantity stock with
            | Some q => q
            | None => 0
            end)%Z
  end.

(** The body of the [for stock in stock_levels] loop of
    [generate_alerts]. *)
Definition generate_alerts_step (alerts : list AlertCreate)
    (stock : stock_level) : list AlertCreate :=
  let current_stock := sl_current_stock stock in
  let stock_percentage := sl_stock_percentage stock in
  let velocity :=                                  (* [.get("velocity", 0)] *)
    match sl_velocity stock with Some v => v | None => 0 end in
  let days_until_stockout := sl_days_until_stockout stock in
  if (current_stock =? 0)%Z then
    alerts ++
    [mk_AlertCreate (sl_product_id stock) (sl_location_id stock)
       OUT_OF_STOCK CRITICAL
       (MsgOutOfStock (sl_product_name stock))
       current_stock
       (ActUrgentReorder (sl_suggested_reorder_quantity stock))]
  else if Qle_bool stock_percentage (inject_Z (critical_threshold self)) then
    alerts ++
    [mk_AlertCreate (sl_product_id stock) (sl_location_id stock)
       CRITICAL_STOCK CRITICAL
       (MsgCriticalLevel (sl_product_name stock) current_stock stock_percentage)
       current_stock
       (ActReorderImmediately (sl_suggested_reorder_quantity stock))]
  else if Qle_bool stock_percentage (inject_Z (low_threshold self)) then
    alerts ++
    [mk_AlertCreate (sl_product_id stock) (sl_location_id stock)
       LOW_STOCK WARNING
       (MsgLowLevel (sl_product_name stock) current_stock stock_percentage)
       current_stock
       (ActConsiderReordering (sl_suggested_reorder_quantity stock))]
  else if reorder_condition stock then
    alerts ++
    [mk_AlertCreate (sl_product_id stock) (sl_location_id stock)
       REORDER_SUGGESTED INFO
       (MsgRunOut (sl_product_name stock)
          (match days_until_stockout with Some d => d | None => 0%Z end))
       current_stock
       (ActReorderOptimal
          (match sl_suggested_reorder_quantity stock with
           | Some q => q
           | None => 0%Z
           end))]
  else alerts.

(** [generate_alerts(stock_levels)] *)
Definition generate_alerts (stock_levels : list stock_level)
    : list AlertCreate :=
  fold_left generate_alerts_step stock_levels [].

End Monitor.

(** ** The percentage expression on IEEE-754 doubles *)

Module Binary64.

(** Conversion of a Python int (below 2^53 in absolute value) to float. *)
Definition of_int (z : Z) : float :=
  match z with
  | Z0 => PrimFloat.of_uint63 0
  | Zpos _ => PrimFloat.of_uint63 (Uint63.of_Z z)
  | Zneg p => PrimFloat.opp (PrimFloat.of_uint63 (Uint63.of_Z (Zpos p)))
  end.

(** [(current_stock / max_stock) * 100] as check_stock_levels evaluates it. *)
Definition stock_percentage (current_stock max_stock : Z) : float :=
  PrimFloat.mul (PrimFloat.div (of_int current_stock) (of_int max_stock))
                (of_int 100).

(** [x == n] between a float and an int. *)
Definition eq_int (x : float) (n : Z) : bool := PrimFloat.eqb x (of_int n).

(** [abs(x - n) <= tolerance] *)
Definition within (tolerance x : float) (n : Z) : bool :=
  PrimFloat.leb (PrimFloat.abs (PrimFloat.sub x (of_int n))) tolerance.

(** 2^-40, about 9.1e-13. *)
Definition tolerance : float := 0x1p-40%float.

(** *** The forecaster on doubles

    The velocity and the stockout projection as the interpreter computes
    them, every operation rounded to binary64. *)

(** The ints that [of_int] converts without rounding. *)
Definition in_range (z : Z) : Prop := (Z.abs z < 2 ^ 53)%Z.

(** The smallest positive double, 2^-1074. *)
Definition smallest_positive : float := 0x1p-1074%float.

(** The exact value of a finite double; [None] for an infinity or a NaN. *)
Definition value (x : float) : option Q :=
  match Prim2SF x with
  | S754_zero _ => Some 0
  | S754_finite s m e =>
      let magnitude :=
        match e with
        | Zneg p => Qmake (Zpos m) (Pos.pow 2 p)
        | Z0 | Zpos _ => inject_Z (Zpos m * 2 ^ e)
        end in
      Some (if s then - magnitude else magnitude)
  | S754_infinity _ | S754_nan => None
  end.

(** [int(x)] for a float: truncation of the exact value; [None] stands
    for the [OverflowError] or [ValueError] raised on an infinity or a
    NaN. *)
Definition int (x : float) : option Z := option_map Py.int (value x).

(** [float(text)] for the decimal text of the rational [q], numerator and
    denominator below 2^53: the double nearest to [q]. *)
Definition of_decimal (q : Q) : float :=
  PrimFloat.div (of_int (Qnum q)) (of_int (Zpos (Qden q))).

(** The double nearest to [k] hundredths, for [k] below 2^53. *)
Definition hundredths (k : Z) : float :=
  PrimFloat.div (of_int k) (of_int 100).

(** [round(x, 2)]: the exact value of [x] is rounded to the nearest
    hundredth, ties to the even one, and the result is the double nearest
    to that decimal; a double of magnitude 2^46 or more is a multiple of
    2^-6 and is returned as it is, as are infinities and NaN. *)
Definition round2 (x : float) : float :=
  match value x with
  | None => x
  | Some q =>
      if Qle_bool (inject_Z (2 ^ 46)) (Qabs q) then x
      else
        let k := Py.round_half_even (Qabs q * 100) in
        if PrimFloat.get_sign x then PrimFloat.opp (hundredths k)
        else hundredths k
  end.

(** [float(line_item.get("quantity", 0))] *)
Definition float_of_quantity (f : quantity_field) : option float :=
  match f with
  | QtyAbsent => Some PrimFloat.zero
  | QtyNumber q => Some (of_decimal q)
  | QtyMalformed => None
  end.

(** The inner and the outer loop of [calculate_velocity]. *)
Definition velocity_line_step (product_id : string)
    (total_units : option float) (li : line_item) : option float :=
  match total_units with
  | None => None
  | Some t =>
      if id_matches product_id li then
        match float_of_quantity (li_quantity li) with
        | Some quantity => Some (PrimFloat.add t quantity)
        | None => None
        end
      else Some t
  end.

Definition velocity_order_step (product_id : string)
    (total_units : option float) (o : order) : option float :=
  fold_left (velocity_line_step product_id) (order_line_items o) total_units.

Definition count_total_units (product_id : string)
    (sales_history : list order) : option float :=
  fold_left (velocity_order_step product_id) sales_history
            (Some PrimFloat.zero).

(** [calculate_velocity(product_id, sales_history, days)] *)
Definition calculate_velocity (product_id : string)
    (sales_history : list order) (days : Z) : float :=
  match count_total_units product_id sales_history with
  | Some total_units =>
      let velocity :=
        if (0 <? days)%Z then PrimFloat.div total_units (of_int days)
        else PrimFloat.zero in
      round2 velocity
  | None => PrimFloat.zero
  end.

(** What a call of [calculate_days_until_stockout] does: it returns
    [None] or an integer, or [int()] raises. *)
Inductive days_outcome : Type :=
| Returns (days : option Z)
| Raises.

(** [calculate_days_until_stockout(current_stock, velocity)] *)
Definition calculate_days_until_stockout (current_stock : Z)
    (velocity : float) : days_outcome :=
  if PrimFloat.leb velocity PrimFloat.zero then Returns None
  else
    let days := PrimFloat.div (of_int current_stock) velocity in
    match int days with
    | Some d => Returns (Some d)
    | None => Raises
    end.



(** The projection for a stock and a velocity of [k] hundredths lies
    between the floor of the exact quotient and one more. *)
Definition projection_near_floor (current_stock k : Z) : bool :=
  let velocity := hundredths k in
  match calculate_days_until_stockout current_stock velocity,
        value velocity with
  | Returns (Some d), Some v =>
      let exact_floor := Qfloor (inject_Z current_stock / v) in
      (exact_floor <=? d)%Z && (d <=? exact_floor + 1)%Z
  | _, _ => false
  end.

End Binary64.

(** ** HTTP layer and scheduled jobs *)

(** An endpoint returns its body, or turns any exception into
    [HTTPException(status_code=500, detail=str(e))]. *)
Inductive http_response (A : Type) : Type :=
| Http200 (body : A)
| Http500 (detail : exn).
Arguments Http200 {A} body.
Arguments Http500 {A} detail.

(** [sum(1 for x in xs if p(x))] *)
Definition count_where {A : Type} (p : A -> bool) (xs : list A) : nat :=
  fold_left (fun total x => if p x then (total + 1)%nat else total) xs 0%nat.

(** [s["status"] == status] and [s["status"] in [...]] *)
Definition status_is (status : string) (s : stock_level) : bool :=
  String.eqb (sl_status s) status.

Definition status_in (statuses : list string) (s : stock_level) : bool :=
  existsb (String.eqb (sl_status s)) statuses.

(** api/inventory.py *)
Module InventoryApi.

(** The dictionary returned by [get_inventory_summary]. *)
Record inventory_summary : Type := mk_inventory_summary {
  total_products : nat;
  healthy : nat;
  low_stock : nat;
  critical : nat;
  out_of_stock : nat;
  needs_attention : nat
}.

(** [get_inventory_summary(location_id)] *)
Definition get_inventory_summary (monitor_service : MonitorService)
    (location_id : string) : http_response inventory_summary :=
  match check_stock_levels monitor_service location_id with
  | Ok stock_levels =>
      let total_products := List.length stock_levels in
      let healthy := count_where (status_is "healthy") stock_levels in
      let low := count_where (status_is "low") stock_levels in
      let critical := count_where (status_is "critical") stock_levels in
      let out_of_stock := count_where (status_is "out_of_stock") stock_levels in
      Http200 (mk_inventory_summary total_products healthy low critical
                 out_of_stock (low + critical + out_of_stock)%nat)
  | Raise e => Http500 e
  end.

End InventoryApi.

(** models/alert.py: [Alert], an [AlertCreate] with metadata. *)
Record Alert : Type := mk_Alert {
  alert_id : string;
  alert_base : AlertCreate;
  acknowledged : bool;
  acknowledged_at : option string;
  acknowledged_by : option string;
  created_at : string
}.

(** [a.severity] and [a.message] of an [Alert]. *)
Definition alert_severity (a : Alert) : AlertSeverity :=
  severity (alert_base a).

Definition alert_message (a : Alert) : message_text := message (alert_base a).

(** The string value of a severity. *)
Definition AlertSeverity_value (s : AlertSeverity) : string :=
  match s with
  | INFO => "info"
  | WARNING => "warning"
  | CRITICAL => "critical"
  end.

(** The loop that turns each [AlertCreate] into an [Alert]; [uuid4 i] and
    [now i] stand for the results of the i-th calls of [uuid.uuid4()] and
    [datetime.now()]. *)
Fixpoint convert_alerts (uuid4 now : nat -> string) (i : nat)
    (alert_creates : list AlertCreate) : list Alert :=
  match alert_creates with
  | [] => []
  | ac :: rest =>
      mk_Alert (uuid4 i) ac false None None (now i)
      :: convert_alerts uuid4 now (S i) rest
  end.

(** api/alerts.py *)
Module AlertsApi.

(** [get_alerts(location_id, severity, acknowledged)]; an absent query
    parameter is [None]. *)
Definition get_alerts (uuid4 now : nat -> string)
    (monitor_service : MonitorService)
    (location_id severity : option string) (acknowledged_filter : option bool)
    : http_response (list Alert) :=
  let location :=                       (* [location_id or "demo_location"] *)
    match location_id with
    | Some l => if String.eqb l "" then "demo_location" else l
    | None => "demo_location"
    end in
  match check_stock_levels monitor_service location with
  | Raise e => Http500 e
  | Ok stock_levels =>
      let alert_creates := generate_alerts monitor_service stock_levels in
      let alerts := convert_alerts uuid4 now 0 alert_creates in
      let alerts :=
        match severity with                               (* [if severity:] *)
        | Some sv =>
            if String.eqb sv "" then alerts
            else filter (fun a =>
                           String.eqb
                             (AlertSeverity_value (alert_severity a)) sv)
                        alerts
        | None => alerts
        end in
      let alerts :=
        match acknowledged_filter with
        | Some wanted =>
            filter (fun a => Bool.eqb (acknowledged a) wanted) alerts
        | None => alerts
        end in
      Http200 alerts
  end.

End AlertsApi.

(** ** Notification text

    The text of a notification is kept as the sequence of pieces the
    f-strings concatenate: literal text, the message of an alert, the
    suggested action of an alert. *)
Inductive text_part : Type :=
| Text (s : string)
| MessageOf (m : message_text)
| ActionOf (a : action_text).

Definition newline : string := String (ascii_of_nat 10) EmptyString.

(** [str(n)] for a length. *)
Definition str_of_nat (n : nat) : string :=
  NilEmpty.string_of_uint (Nat.to_uint n).

(** [s.upper()] on ASCII text. *)
Definition upper_ascii (c : ascii) : ascii :=
  let n := nat_of_ascii c in
  if (97 <=? n)%nat && (n <=? 122)%nat then ascii_of_nat (n - 32) else c.

Fixpoint upper (s : string) : string :=
  match s with
  | EmptyString => EmptyString
  | String c rest => String (upper_ascii c) (upper rest)
  end.

(** The string value of an alert type. *)
Definition AlertType_value (t : AlertType) : string :=
  match t with
  | LOW_STOCK => "low_stock"
  | CRITICAL_STOCK => "critical_stock"
  | OUT_OF_STOCK => "out_of_stock"
  | REORDER_SUGGESTED => "reorder_suggested"
  | VELOCITY_ANOMALY => "velocity_anomaly"
  end.

(** [a.severity == "critical"] and the like. *)
Definition severity_is (value : string) (a : Alert) : bool :=
  String.eqb (AlertSeverity_value (alert_severity a)) value.

(** The messages a text shows, in order. *)
Definition messages_shown (text : list text_part) : list message_text :=
  flat_map (fun part => match part with
                        | MessageOf m => [m]
                        | Text _ | ActionOf _ => []
                        end) text.

(** The dictionary [{"success": ..., "failed": ...}] of the notifiers. *)
Record send_counts : Type := mk_send_counts {
  success : nat;
  failed : nat
}.

(** services/twilio_notifier.py *)
Module Twilio.

Record TwilioNotifier : Type := mk_TwilioNotifier {
  demo_mode : bool;
  from_number : string;
  to_numbers : list string
}.

(** [_format_alert_message(alert)]; the suggested action of an alert
    built from [generate_alerts] is never empty, so the action line is
    always added. *)
Definition _format_alert_message (alert : Alert) : list text_part :=
  let emoji :=
    match alert_severity alert with
    | CRITICAL => "🔴"
    | WARNING => "⚠️"
    | INFO => "ℹ️"
    end in
  [Text (emoji ++ " StockAlert - "
         ++ upper (AlertType_value (alert_type (alert_base alert)))
         ++ newline ++ newline);
   MessageOf (alert_message alert); Text newline;
   Text (newline ++ "Action: ");
   ActionOf (suggested_action (alert_base alert))].

(** [_format_summary_message(alerts)] *)
Definition _format_summary_message (alerts : list Alert) : list text_part :=
  let message :=
    [Text ("📊 StockAlert Summary - " ++ str_of_nat (List.length alerts)
           ++ " items need attention:" ++ newline ++ newline)] in
  let message :=
    fold_left (fun message alert =>
                 message ++ [Text "• "; MessageOf (alert_message alert);
                             Text newline])
              (firstn 5 alerts) message in
  if (5 <? List.length alerts)%nat then
    message ++ [Text (newline ++ "...and "
                      ++ str_of_nat (List.length alerts - 5)
                      ++ " more. Check dashboard for details.")]
  else message.

Section Transport.

(** [messages_create n body from to] is the outcome of the n-th call of
    [self.client.messages.create(body=..., from_=..., to=...)] made by the
    process: [true] when it returns, [false] when it raises
    [TwilioRestException].  The second component of every result below is
    the number of calls made so far. *)
Variable messages_create : nat -> list text_part -> string -> string -> bool.

Variable self : TwilioNotifier.

(** The [for to_number in self.to_numbers] loop shared by [send_alert]
    and [_send_message]. *)
Definition send_to_numbers (message_body : list text_part) (calls : nat)
    : bool * nat :=
  fold_left (fun (state : bool * nat) to_number =>
               let (success, n) := state in
               if messages_create n message_body (from_number self) to_number
               then (success, S n)
               else (false, S n))
            (to_numbers self) (true, calls).

(** [send_alert(alert)] *)
Definition send_alert (alert : Alert) (calls : nat) : bool * nat :=
  if demo_mode self then (true, calls)
  else
    match to_numbers self with
    | [] => (false, calls)
    | _ :: _ => send_to_numbers (_format_alert_message alert) calls
    end.

(** [_send_message(message_body)] *)
Definition _send_message (message_body : list text_part) (calls : nat)
    : bool * nat :=
  match to_numbers self with
  | [] => (false, calls)
  | _ :: _ => send_to_numbers message_body calls
  end.

(** The [for alert in critical_alerts] loop of [send_batch_alerts]. *)
Definition send_critical_step (state : send_counts * nat) (alert : Alert)
    : send_counts * nat :=
  let (counts, calls) := state in
  let (sent, calls) := send_alert alert calls in
  if sent
  then (mk_send_counts (success counts + 1) (failed counts), calls)
  else (mk_send_counts (success counts) (failed counts + 1), calls).

(** [send_batch_alerts(alerts)] *)
Definition send_batch_alerts (alerts : list Alert) (calls : nat)
    : send_counts * nat :=
  match alerts with
  | [] => (mk_send_counts 0 0, calls)
  | _ :: _ =>
      if demo_mode self
      then (mk_send_counts (List.length alerts) 0, calls)
      else
        let critical_alerts := filter (severity_is "critical") alerts in
        let other_alerts :=
          filter (fun a => negb (severity_is "critical" a)) alerts in
        let (counts, calls) :=
          fold_left send_critical_step critical_alerts
                    (mk_send_counts 0 0, calls) in
        match other_alerts with
        | [] => (counts, calls)
        | _ :: _ =>
            let summary := _format_summary_message other_alerts in
            let (sent, calls) := _send_message summary calls in
            if sent
            then (mk_send_counts
                    (success counts + List.length other_alerts)
                    (failed counts), calls)
            else (mk_send_counts
                    (success counts)
                    (failed counts + List.length other_alerts), calls)
        end
  end.

End Transport.

End Twilio.

(** services/slack_notifier.py *)
Module Slack.

Record SlackNotifier : Type := mk_SlackNotifier {
  demo_mode : bool;
  webhook_url : string
}.

(** One severity group of [_format_batch_payload]: heading, the first
    [shown] messages, the overflow line and the closing line. *)
Definition format_group (heading : nat -> string) (shown : nat)
    (more : nat -> string) (closing : list text_part)
    (text : list text_part) (group : list Alert) : list text_part :=
  match group with
  | [] => text
  | _ :: _ =>
      let text := text ++ [Text (heading (List.length group))] in
      let text :=
        fold_left (fun text alert =>
                     text ++ [Text "• "; MessageOf (alert_message alert);
                              Text newline])
                  (firstn shown group) text in
      let text :=
        if (shown <? List.length group)%nat
        then text ++ [Text (more (List.length group - shown)%nat)]
        else text in
      text ++ closing
  end.

(** [_format_batch_payload(alerts)]: the value of the ["text"] key. *)
Definition _format_batch_payload (alerts : list Alert) : list text_part :=
  let critical := filter (severity_is "critical") alerts in
  let warnings := filter (severity_is "warning") alerts in
  let info := filter (severity_is "info") alerts in
  let text :=
    [Text ("*Stock Alert Summary* - " ++ str_of_nat (List.length alerts)
           ++ " items need attention" ++ newline ++ newline)] in
  let text :=
    format_group
      (fun n => ("🔴 *Critical (" ++ str_of_nat n ++ ")*" ++ newline)%string) 3
      (fun n => ("• ...and " ++ str_of_nat n ++ " more critical items"
                 ++ newline)%string)
      [Text newline] text critical in
  let text :=
    format_group
      (fun n => ("⚠️ *Warnings (" ++ str_of_nat n ++ ")*" ++ newline)%string) 3
      (fun n => ("• ...and " ++ str_of_nat n ++ " more warnings"
                 ++ newline)%string)
      [Text newline] text warnings in
  format_group
    (fun n => ("ℹ️ *Info (" ++ str_of_nat n ++ ")*" ++ newline)%string) 2
    (fun n => ("• ...and " ++ str_of_nat n ++ " more items" ++ newline)%string)
    [] text info.

Section Transport.

(** [requests_post n url payload] is the outcome of the n-th
    [requests.post] followed by [raise_for_status()]: [true] when both
    return, [false] when a [RequestException] is raised. *)
Variable requests_post : nat -> string -> list text_part -> bool.

Variable self : SlackNotifier.

(** [send_batch_alerts(alerts)] *)
Definition send_batch_alerts (alerts : list Alert) (posts : nat)
    : send_counts * nat :=
  match alerts with
  | [] => (mk_send_counts 0 0, posts)
  | _ :: _ =>
      if demo_mode self
      then (mk_send_counts (List.length alerts) 0, posts)
      else
        let payload := _format_batch_payload alerts in
        if requests_post posts (webhook_url self) payload
        then (mk_send_counts (List.length alerts) 0, S posts)
        else (mk_send_counts 0 (List.length alerts), S posts)
  end.

End Transport.

End Slack.

(** scheduler/jobs.py *)
Module Jobs.

(** The locations both jobs go through. *)
Definition location_ids : list string := ["loc_001"; "loc_002"; "loc_003"].

(** [summary_data] of [daily_summary_job]. *)
Record summary_data : Type := mk_summary_data {
  sd_total_products : nat;
  sd_healthy : nat;
  sd_low_stock : nat;
  sd_critical : nat;
  sd_alerts_generated : nat;
  sd_reorders_suggested : nat
}.

(** [s.get("suggested_reorder_quantity", 0) > 0] *)
Definition reorder_is_suggested (s : stock_level) : bool :=
  (0 <? match sl_suggested_reorder_quantity s with
        | Some q => q
        | None => 0
        end)%Z.

(** The body of the [for location_id in location_ids] loop of
    [daily_summary_job]. *)
Definition daily_summary_step (monitor_service : MonitorService)
    (acc : result summary_data) (location_id : string) : result summary_data :=
  acc <- acc ;;
  stock_levels <- check_stock_levels monitor_service location_id ;;
  let alert_creates := generate_alerts monitor_service stock_levels in
  Ok (mk_summary_data
        (sd_total_products acc + List.length stock_levels)
        (sd_healthy acc + count_where (status_is "healthy") stock_levels)
        (sd_low_stock acc + count_where (status_is "low") stock_levels)
        (sd_critical acc
         + count_where (status_in ["critical"; "out_of_stock"]) stock_levels)
        (sd_alerts_generated acc + List.length alert_creates)
        (sd_reorders_suggested acc
         + count_where reorder_is_suggested stock_levels))%nat.

(** The [summary_data] dictionary [daily_summary_job] hands to the Slack
    notifier; [Raise] is the branch of its [except]. *)
Definition daily_summary (monitor_service : MonitorService)
    : result summary_data :=
  fold_left (daily_summary_step monitor_service) location_ids
            (Ok (mk_summary_data 0 0 0 0 0 0)).

Section InventoryCheck.

Variables uuid4 now : nat -> string.
Variable messages_create : nat -> list text_part -> string -> string -> bool.
Variable requests_post : nat -> string -> list text_part -> bool.
Variable monitor_service : MonitorService.
Variable twilio_notifier : Twilio.TwilioNotifier.
Variable slack_notifier : Slack.SlackNotifier.

(** The body of the [for location_id in location_ids] loop of
    [check_inventory_job]; the i-th alert appended takes the i-th
    identifier and timestamp. *)
Definition collect_alerts_step (all_alerts : result (list Alert))
    (location_id : string) : result (list Alert) :=
  all_alerts <- all_alerts ;;
  stock_levels <- check_stock_levels monitor_service location_id ;;
  let alert_creates := generate_alerts monitor_service stock_levels in
  match alert_creates with
  | [] => Ok all_alerts
  | _ :: _ =>
      Ok (all_alerts
          ++ convert_alerts uuid4 now (List.length all_alerts) alert_creates)
  end.

(** What a run of [check_inventory_job] leaves behind: the alerts it
    collected, the results of the two batch sends when they were made, and
    the numbers of SMS requests and webhook posts made so far. *)
Record job_outcome : Type := mk_job_outcome {
  job_alerts : list Alert;
  job_sms : option send_counts;
  job_slack : option send_counts;
  job_sms_calls : nat;
  job_slack_posts : nat
}.

(** [check_inventory_job()], started after [calls] SMS requests and
    [posts] webhook posts. *)
Definition check_inventory_job (calls posts : nat) : job_outcome :=
  match fold_left collect_alerts_step location_ids (Ok []) with
  | Raise _ => mk_job_outcome [] None None calls posts       (* [except] *)
  | Ok all_alerts =>
      match all_alerts with
      | [] => mk_job_outcome [] None None calls posts
      | _ :: _ =>
          let critical_alerts :=
            filter (severity_is "critical") all_alerts in
          let (sms, calls) :=
            match critical_alerts with
            | [] => (None, calls)
            | _ :: _ =>
                let (counts, calls) :=
                  Twilio.send_batch_alerts messages_create twilio_notifier
                    critical_alerts calls in
                (Some counts, calls)
            end in
          let (slack, posts) :=
            Slack.send_batch_alerts requests_post slack_notifier
              all_alerts posts in
          mk_job_outcome all_alerts sms (Some slack) calls posts
      end
  end.

End InventoryCheck.

End Jobs.

(** ** The clamped quantity of the reorder contract

    The quantity the contract rounds, in the contract's own words:
    [min(velocity * (lead_time_days + safety_stock_days) - current_stock,
         max_stock - current_stock)]. *)
Definition clamped_quantity (velocity : Q)
    (current_stock max_stock lead_time_days safety_stock_days : Z) : Q :=
  Qmin (velocity * inject_Z (lead_time_days + safety_stock_days)
        - inject_Z current_stock)
       (inject_Z max_stock - inject_Z current_stock).

(** ** Predicates used in the statements *)

(** Some line item of the product carries a quantity [float()] rejects. *)
Definition has_malformed_match (product_id : string)
    (sales_history : list order) : Prop :=
  exists o li,
    In o sales_history /\ In li (order_line_items o) /\
    id_matches product_id li = true /\ li_quantity li = QtyMalformed.

(** No line item of the history belongs to the product. *)
Definition never_sold (product_id : string)
    (sales_history : list order) : Prop :=
  Forall (fun o => Forall (fun li => id_matches product_id li = false)
                          (order_line_items o))
         sales_history.

(** Every recorded quantity is a non-negative number. *)
Definition quantities_nonneg (sales_history : list order) : Prop :=
  Forall (fun o => Forall (fun li => forall q, li_quantity li = QtyNumber q
                                               -> 0 <= q)
                          (order_line_items o))
         sales_history.




(** The same order with another timestamp. *)
Definition set_created_at (created_at : string) (o : order) : order :=
  mk_order (order_id o) created_at (order_line_items o).

(** What one snapshot contributes, rule by rule. *)
Inductive single_alert (self : MonitorService) (stock : stock_level) : list AlertCreate -> Prop :=
| rule_out_of_stock a :
    sl_current_stock stock = 0%Z ->
    alert_type a = OUT_OF_STOCK -> severity a = CRITICAL ->
    single_alert self stock [a]
| rule_critical a :
    sl_current_stock stock <> 0%Z ->
    sl_stock_percentage stock <= inject_Z (critical_threshold self) ->
    alert_type a = CRITICAL_STOCK -> severity a = CRITICAL ->
    single_alert self stock [a]
| rule_low a :
    sl_current_stock stock <> 0%Z ->
    ~ sl_stock_percentage stock <= inject_Z (critical_threshold self) ->
    sl_stock_percentage stock <= inject_Z (low_threshold self) ->
    alert_type a = LOW_STOCK -> severity a = WARNING ->
    single_alert self stock [a]
| rule_reorder a :
    sl_current_stock stock <> 0%Z ->
    ~ sl_stock_percentage stock <= inject_Z (critical_threshold self) ->
    ~ sl_stock_percentage stock <= inject_Z (low_threshold self) ->
    reorder_condition stock = true ->
    alert_type a = REORDER_SUGGESTED -> severity a = INFO ->
    single_alert self stock [a]
| rule_none :
    sl_current_stock stock <> 0%Z ->
    ~ sl_stock_percentage stock <= inject_Z (critical_threshold self) ->
    ~ sl_stock_percentage stock <= inject_Z (low_threshold self) ->
    reorder_condition stock = false ->
    single_alert self stock [].

(** What holds of every snapshot in exact arithmetic. *)
Definition capacity_hundred (s : stock_level) : Prop :=
  sl_max_stock s = 100%Z /\
  sl_stock_percentage s == inject_Z (sl_current_stock s).

Definition all_capacity_hundred (results : result (list stock_level)) : Prop :=
  exists stock_levels,
    results = Ok stock_levels /\ Forall capacity_hundred stock_levels.

(** The inventory entry has a catalog entry with the same identifier. *)
Definition in_catalog (catalog : list catalog_item) (id : string) : bool :=
  existsb (fun c => String.eqb (cat_id c) id) catalog.

(** How [check_stock_levels] fills the computed entries of a dictionary. *)
Definition built_by_monitor (self : MonitorService) (s : stock_level) : Prop :=
  sl_max_stock s = 100%Z /\
  sl_stock_percentage s = inject_Z (sl_current_stock s) / inject_Z 100 * 100 /\
  sl_status s
  = _determine_status self (sl_stock_percentage s) (sl_current_stock s) /\
  exists velocity : Q,
    sl_velocity s = Some velocity /\
    sl_days_until_stockout s
    = (if Py.Qltb 0 velocity
       then ForecasterService.calculate_days_until_stockout
              (sl_current_stock s) velocity
       else None) /\
    sl_suggested_reorder_quantity s
    = Some (ForecasterService.calculate_reorder_quantity
              velocity (sl_current_stock s) 100 7 7).

(** Some rule of [generate_alerts] fires for the snapshot. *)
Definition alerting (self : MonitorService) (s : stock_level) : bool :=
  (sl_current_stock s =? 0)%Z
  || Qle_bool (sl_stock_percentage s) (inject_Z (critical_threshold self))
  || Qle_bool (sl_stock_percentage s) (inject_Z (low_threshold self))
  || reorder_condition s.

(** The stock-level alert that goes with a status, if any. *)
Definition status_alert_agree (status : string) (types : list AlertType)
    : Prop :=
  (status = "out_of_stock" /\ types = [OUT_OF_STOCK]) \/
  (status = "critical" /\ types = [CRITICAL_STOCK]) \/
  (status = "low" /\ types = [LOW_STOCK]) \/
  (status = "healthy" /\ (types = [] \/ types = [REORDER_SUGGESTED])).


(** ** Concrete inputs *)

(** A provider with no data, and the monitor built from the default
    settings (thresholds 20 and 5). *)
Definition empty_square : SquareService :=
  mk_SquareService (fun _ => []) (fun _ => []) (fun _ _ => []).

Definition default_monitor : MonitorService :=
  mk_MonitorService empty_square
    default_low_stock_threshold_percentage
    default_critical_stock_threshold_percentage.

(** tests/test_monitor.py, [test_calculate_velocity]. *)
Definition test_sales_history : list order :=
  [ mk_order "order_1" "2024-01-01T00:00:00"
      [mk_line_item (Some "item_001") (QtyNumber 5)];
    mk_order "order_2" "2024-01-02T00:00:00"
      [mk_line_item (Some "item_001") (QtyNumber 3)] ].

(** tests/test_monitor.py, [test_generate_alerts_healthy]: the dictionary
    has no velocity, projection or reorder entry. *)
Definition test_healthy_stock : stock_level :=
  mk_stock_level "test_004" "Test Product 4" "loc_001" 80 100 80 "healthy"
    None None None.

(** tests/test_monitor.py, the out-of-stock, critical and low fixtures. *)
Definition test_out_of_stock : stock_level :=
  mk_stock_level "test_001" "Test Product" "loc_001" 0 100 0 "out_of_stock"
    None None None.

Definition test_critical_stock : stock_level :=
  mk_stock_level "test_002" "Test Product 2" "loc_001" 3 100 3 "critical"
    None None None.

Definition test_low_stock : stock_level :=
  mk_stock_level "test_003" "Test Product 3" "loc_001" 15 100 15 "low"
    None None None.

(** The alerts of the three alerting test fixtures, as the endpoints
    build them. *)
Definition test_alerts : list Alert :=
  convert_alerts (fun _ => "00000000-0000-4000-8000-000000000000")
    (fun _ => "2024-01-31T00:00:00") 0
    (generate_alerts default_monitor
       [test_out_of_stock; test_critical_stock; test_low_stock]).

Definition test_twilio (demo_mode : bool) (to_numbers : list string)
    : Twilio.TwilioNotifier :=
  Twilio.mk_TwilioNotifier demo_mode "+15550000000" to_numbers.


(** A history with a single order of [sold] units of item_001. *)
Definition single_order_history (sold : Q) : list order :=
  [mk_order "order_0_1" "2024-01-01T00:00:00"
     [mk_line_item (Some "item_001") (QtyNumber sold)]].

(** A provider reporting one product with [quantity] units on hand and a
    single order of [sold] units in the 30-day history. *)
Definition single_product_square (quantity sold : Q) : SquareService :=
  mk_SquareService
    (fun location_id =>
       [mk_inventory_count "item_001" location_id quantity
          "2024-01-31T00:00:00"])
    (fun _ =>
       [mk_catalog_item "item_001" "Premium Coffee Beans"
          "Organic whole bean coffee" "cat_beverages"])
    (fun _ _ =>
       [mk_order "order_0_1" "2024-01-01T00:00:00"
          [mk_line_item (Some "item_001") (QtyNumber sold)]]).

Definition single_product_monitor (quantity sold : Q) : MonitorService :=
  mk_MonitorService (single_product_square quantity sold)
    default_low_stock_threshold_percentage
    default_critical_stock_threshold_percentage.

(** * Properties *)

(** ** Facts about the numeric primitives *)

Lemma Qltb_lt (a b : Q) : Py.Qltb a b = true <-> a < b.
Proof.
  unfold Py.Qltb. rewrite negb_true_iff. split.
  - intro H. apply Qnot_le_lt. intro Hle.
    apply Qle_bool_iff in Hle. congruence.
  - intro H. destruct (Qle_bool b a) eqn:E; trivial.
    apply Qle_bool_iff in E. exfalso. exact (Qlt_not_le _ _ H E).
Qed.

Lemma Qltb_ge (a b : Q) : Py.Qltb a b = false <-> b <= a.
Proof.
  unfold Py.Qltb. rewrite negb_false_iff. apply Qle_bool_iff.
Qed.

Lemma Qle_bool_gt (a b : Q) : Qle_bool a b = false <-> b < a.
Proof.
  rewrite <- Qltb_lt. unfold Py.Qltb. now rewrite negb_true_iff.
Qed.

Lemma Qnum_nonneg (x : Q) : 0 <= x -> (0 <= Qnum x)%Z.
Proof. unfold Qle. simpl. lia. Qed.

(** On non-negative numbers, truncation is the floor. *)
Lemma int_floor_nonneg (x : Q) : 0 <= x -> Py.int x = Qfloor x.
Proof.
  intro H. apply Qnum_nonneg in H. destruct x as [n d]. simpl in *.
  unfold Py.int. simpl. apply Z.quot_div_nonneg; lia.
Qed.

Lemma int_inject_Z (z : Z) : Py.int (inject_Z z) = z.
Proof. unfold Py.int. simpl. apply Z.quot_1_r. Qed.

(** ** Stock classifier *)

Section Classifier.

Variable self : MonitorService.

Let critical := inject_Z (critical_threshold self).
Let low := inject_Z (low_threshold self).

(** C5: the status is out_of_stock exactly when the stock is zero;
    otherwise critical exactly when the percentage is at most the critical
    threshold; otherwise low exactly when it is at most the low threshold;
    otherwise healthy. *)
Theorem determine_status_tiers (stock_percentage : Q) (current_stock : Z) :
  (critical_threshold self < low_threshold self)%Z ->
  (_determine_status self stock_percentage current_stock = "out_of_stock"
     <-> current_stock = 0%Z) /\
  (current_stock <> 0%Z ->
     (_determine_status self stock_percentage current_stock = "critical"
        <-> stock_percentage <= critical)) /\
  (current_stock <> 0%Z -> ~ stock_percentage <= critical ->
     (_determine_status self stock_percentage current_stock = "low"
        <-> stock_percentage <= low)) /\
  (current_stock <> 0%Z -> ~ stock_percentage <= critical ->
     ~ stock_percentage <= low ->
     _determine_status self stock_percentage current_stock = "healthy").
Proof.
  intros _. unfold _determine_status. fold critical low.
  destruct (Z.eqb_spec current_stock 0) as [Hz | Hz];
    [ repeat split; intros; try contradiction; trivial | ].
  destruct (Qle_bool stock_percentage critical) eqn:Ec;
    [ apply Qle_bool_iff in Ec | ].
  { repeat split; intros; try contradiction; try discriminate; trivial. }
  assert (Hc : ~ stock_percentage <= critical).
  { intro H. apply Qle_bool_iff in H. congruence. }
  destruct (Qle_bool stock_percentage low) eqn:El;
    [ apply Qle_bool_iff in El | ].
  { repeat split; intros; try contradiction; try discriminate; trivial. }
  assert (Hl : ~ stock_percentage <= low).
  { intro H. apply Qle_bool_iff in H. congruence. }
  repeat split; intros; try contradiction; try discriminate; trivial.
Qed.

End Classifier.

Lemma determine_status_tiers_witness :
  _determine_status default_monitor 15 15 = "low".
Proof.
  assert (Hthresholds : (critical_threshold default_monitor
                         < low_threshold default_monitor)%Z) by reflexivity.
  destruct (determine_status_tiers default_monitor 15 15 Hthresholds)
    as [_ [_ [H _]]].
  apply H.
  - discriminate.
  - intro Hle. vm_compute in Hle. apply Hle. reflexivity.
  - vm_compute. discriminate.
Defined.

(** ** Alert generator *)

Section AlertGenerator.

Variable self : MonitorService.

Let critical := inject_Z (critical_threshold self).
Let low := inject_Z (low_threshold self).

(** The loop body only ever appends to the list it is given. *)
Lemma generate_alerts_step_app (alerts : list AlertCreate) (stock : stock_level) :
  generate_alerts_step self alerts stock
  = alerts ++ generate_alerts_step self [] stock.
Proof.
  unfold generate_alerts_step.
  repeat match goal with
         | |- context [if ?c then _ else _] => destruct c
         end;
    rewrite ?app_nil_r; reflexivity.
Qed.

Lemma generate_alerts_loop (stock_levels : list stock_level) :
  forall alerts,
    fold_left (generate_alerts_step self) stock_levels alerts
    = alerts ++ flat_map (fun s => generate_alerts self [s]) stock_levels.
Proof.
  induction stock_levels as [| s rest IH]; intro alerts; simpl.
  - now rewrite app_nil_r.
  - rewrite IH, generate_alerts_step_app, <- app_assoc. reflexivity.
Qed.

Lemma generate_alerts_app (l1 l2 : list stock_level) :
  generate_alerts self (l1 ++ l2)
  = generate_alerts self l1 ++ generate_alerts self l2.
Proof.
  unfold generate_alerts.
  rewrite fold_left_app, generate_alerts_loop.
  rewrite (generate_alerts_loop l2 []). reflexivity.
Qed.

Lemma generate_alerts_single (stock : stock_level) :
  single_alert self stock (generate_alerts self [stock]).
Proof.
  unfold generate_alerts. simpl. unfold generate_alerts_step.
  fold critical low.
  destruct (Z.eqb_spec (sl_current_stock stock) 0) as [Hz | Hz].
  { eapply rule_out_of_stock; eauto. }
  destruct (Qle_bool (sl_stock_percentage stock) critical) eqn:Ec.
  { apply Qle_bool_iff in Ec. eapply rule_critical; eauto. }
  assert (Hc : ~ sl_stock_percentage stock <= critical).
  { intro H. apply Qle_bool_iff in H. congruence. }
  destruct (Qle_bool (sl_stock_percentage stock) low) eqn:El.
  { apply Qle_bool_iff in El. eapply rule_low; eauto. }
  assert (Hl : ~ sl_stock_percentage stock <= low).
  { intro H. apply Qle_bool_iff in H. congruence. }
  destruct (reorder_condition stock) eqn:Er.
  - eapply rule_reorder; eauto.
  - apply rule_none; auto.
Qed.

(** No projection within a week: the last rule cannot fire. *)
Lemma reorder_condition_no_projection (stock : stock_level) :
  sl_days_until_stockout stock = None \/
  (exists d, sl_days_until_stockout stock = Some d /\ (7 < d)%Z) ->
  reorder_condition stock = false.
Proof.
  unfold reorder_condition. intros [-> | [d [-> Hd]]]; trivial.
  destruct (Z.leb_spec d 7); [lia|].
  now rewrite andb_false_r.
Qed.

(** C4: [generate_alerts] emits at most one alert per snapshot, chosen by
    the priority order out_of_stock, critical_stock, low_stock,
    reorder_suggested, and none for a snapshot above both thresholds
    without a stockout projection within a week. *)
Theorem generate_alerts_at_most_one (stock_levels : list stock_level) :
  generate_alerts self stock_levels
  = flat_map (fun s => generate_alerts self [s]) stock_levels /\
  (List.length (generate_alerts self stock_levels) <= List.length stock_levels)%nat /\
  forall s : stock_level,
    (List.length (generate_alerts self [s]) <= 1)%nat /\
    (sl_current_stock s = 0%Z ->
       map alert_type (generate_alerts self [s]) = [OUT_OF_STOCK]) /\
    (sl_current_stock s <> 0%Z -> sl_stock_percentage s <= critical ->
       map alert_type (generate_alerts self [s]) = [CRITICAL_STOCK]) /\
    (sl_current_stock s <> 0%Z -> ~ sl_stock_percentage s <= critical ->
     sl_stock_percentage s <= low ->
       map alert_type (generate_alerts self [s]) = [LOW_STOCK]) /\
    (sl_current_stock s <> 0%Z -> ~ sl_stock_percentage s <= critical ->
     ~ sl_stock_percentage s <= low ->
       map alert_type (generate_alerts self [s]) = [] \/
       map alert_type (generate_alerts self [s]) = [REORDER_SUGGESTED]) /\
    (sl_current_stock s <> 0%Z -> ~ sl_stock_percentage s <= critical ->
     ~ sl_stock_percentage s <= low ->
     (sl_days_until_stockout s = None \/
      exists d, sl_days_until_stockout s = Some d /\ (7 < d)%Z) ->
       generate_alerts self [s] = []).
Proof.
  assert (Hflat : generate_alerts self stock_levels
                  = flat_map (fun s => generate_alerts self [s]) stock_levels).
  { unfold generate_alerts at 1. now rewrite generate_alerts_loop. }
  assert (Hone : forall s, (List.length (generate_alerts self [s]) <= 1)%nat).
  { intro s. destruct (generate_alerts_single s); simpl; lia. }
  split; [exact Hflat|]. split.
  { rewrite Hflat. clear Hflat.
    induction stock_levels as [| s rest IH]; simpl; [lia|].
    rewrite length_app. specialize (Hone s). lia. }
  intro s. split; [apply Hone|].
  pose proof (reorder_condition_no_projection s) as Hproj.
  destruct (generate_alerts_single s) as
    [a Hz Ht _ | a Hz Hc Ht _ | a Hz Hc Hl Ht _ | a Hz Hc Hl Hr Ht _
     | Hz Hc Hl Hr]; simpl; rewrite ?Ht;
    repeat split; intros; try contradiction; auto.
  rewrite Hproj in Hr by assumption. discriminate.
Qed.


(** C9: every alert returned by [generate_alerts] is of type out_of_stock,
    critical_stock, low_stock or reorder_suggested; none is of type
    velocity_anomaly. *)
Theorem generate_alerts_types (stock_levels : list stock_level) :
  Forall (fun a =>
            (alert_type a = OUT_OF_STOCK \/ alert_type a = CRITICAL_STOCK \/
             alert_type a = LOW_STOCK \/ alert_type a = REORDER_SUGGESTED) /\
            alert_type a <> VELOCITY_ANOMALY)
         (generate_alerts self stock_levels).
Proof.
  induction stock_levels as [| s rest IH] using rev_ind.
  - constructor.
  - rewrite generate_alerts_app. apply Forall_app. split; [exact IH|].
    destruct (generate_alerts_single s) as
      [a _ Ht _ | a _ _ Ht _ | a _ _ _ Ht _ | a _ _ _ _ Ht _ | _ _ _ _];
      try apply Forall_nil;
      (apply Forall_cons; [| apply Forall_nil]);
      rewrite Ht; (split; [tauto | discriminate]).
Qed.

(** The reorder rule as the generator applies it: the projection has to
    be a non-zero number of days. *)
Lemma reorder_suggested_when_days_nonzero (s : stock_level) (d q : Z) :
  sl_current_stock s <> 0%Z ->
  ~ sl_stock_percentage s <= critical ->
  ~ sl_stock_percentage s <= low ->
  sl_days_until_stockout s = Some d -> d <> 0%Z -> (d <= 7)%Z ->
  sl_suggested_reorder_quantity s = Some q -> (0 < q)%Z ->
  map (fun a => (alert_type a, severity a)) (generate_alerts self [s])
  = [(REORDER_SUGGESTED, INFO)].
Proof.
  intros Hz Hc Hl Hd Hd0 Hd7 Hq Hq0.
  assert (Hr : reorder_condition s = true).
  { unfold reorder_condition. rewrite Hd, Hq.
    destruct (Z.eqb_spec d 0); [contradiction|].
    destruct (Z.leb_spec d 7); [|lia].
    destruct (Z.ltb_spec 0 q); [reflexivity | lia]. }
  destruct (generate_alerts_single s) as
    [a Hz' _ _ | a _ Hc' _ _ | a _ _ Hl' _ _ | a _ _ _ _ Ht Hs
     | _ _ _ Hr']; try contradiction; try congruence.
  simpl. now rewrite Ht, Hs.
Qed.

End AlertGenerator.

Lemma generate_alerts_at_most_one_witness :
  generate_alerts default_monitor [test_healthy_stock] = [].
Proof.
  apply (generate_alerts_at_most_one default_monitor [test_healthy_stock]).
  - discriminate.
  - intro Hle. vm_compute in Hle. apply Hle. reflexivity.
  - intro Hle. vm_compute in Hle. apply Hle. reflexivity.
  - left. reflexivity.
Defined.

(** C3: a product with 30 units on hand (30 percent, above both
    thresholds) selling 40 units a day has a projection of 0 days and a
    suggested reorder of 70 units, yet [generate_alerts] returns no alert
    for the snapshot [check_stock_levels] builds for it. *)
Theorem reorder_suggestion_missed_at_zero_days :
  exists s : stock_level,
    check_stock_levels (single_product_monitor 30 1200) "loc_001" = Ok [s] /\
    sl_current_stock s = 30%Z /\
    sl_stock_percentage s == 30 /\
    sl_days_until_stockout s = Some 0%Z /\
    sl_suggested_reorder_quantity s = Some 70%Z /\
    generate_alerts (single_product_monitor 30 1200) [s] = [].
Proof.
  eexists. split; [vm_compute; reflexivity|].
  repeat split.
Qed.

(** ** Reorder calculator *)

Lemma int_nonpos (x : Q) : x <= 0 -> (Py.int x <= 0)%Z.
Proof.
  intro H. assert (Hn : (Qnum x <= 0)%Z) by (revert H; unfold Qle; simpl; lia).
  unfold Py.int.
  replace (Qnum x) with (- - Qnum x)%Z by lia.
  rewrite Z.quot_opp_l by discriminate.
  assert (0 <= (- Qnum x) ÷ Z.pos (Qden x))%Z by (apply Z.quot_pos; lia).
  lia.
Qed.

Lemma int_inject_mult (k c : Z) : Py.int (inject_Z k * inject_Z c) = (k * c)%Z.
Proof. unfold Py.int. simpl. apply Z.quot_1_r. Qed.

(** The rounding statement never adds more than 9 units. *)
Lemma rounding_adds_at_most_nine (rq : Q) (m : Z) :
  rq <= inject_Z m -> (0 <= m)%Z ->
  (Z.max 0 (Py.int (if Py.Qltb 0 rq then
                      if Qle_bool rq 20
                      then Py.floordiv (rq + 4) 5 * 5
                      else Py.floordiv (rq + 9) 10 * 10
                    else rq)) <= m + 9)%Z.
Proof.
  intros Hrq Hm.
  destruct (Py.Qltb 0 rq) eqn:Epos.
  - assert (Hgoal : forall c : Z, (0 < c <= 10)%Z ->
              (Z.max 0 (Py.int (Py.floordiv (rq + inject_Z (c - 1)) (inject_Z c)
                                * inject_Z c)) <= m + 9)%Z).
    { intros c Hc. unfold Py.floordiv. rewrite int_inject_mult.
      pose proof (Qfloor_le ((rq + inject_Z (c - 1)) / inject_Z c)) as Hfl.
      set (k := Qfloor ((rq + inject_Z (c - 1)) / inject_Z c)) in *.
      assert (Hc' : 0 < inject_Z c) by (unfold Qlt; simpl; lia).
      apply (Qmult_le_compat_r _ _ (inject_Z c)) in Hfl; [|now apply Qlt_le_weak].
      unfold Qdiv in Hfl. rewrite <- Qmult_assoc in Hfl.
      rewrite (Qmult_comm (/ inject_Z c)) in Hfl.
      rewrite Qmult_inv_r in Hfl by (intro E; rewrite E in Hc'; discriminate).
      rewrite Qmult_1_r in Hfl.
      assert (Hz : inject_Z (k * c) <= inject_Z (m + (c - 1))).
      { rewrite inject_Z_mult, inject_Z_plus.
        eapply Qle_trans; [exact Hfl|].
        apply Qplus_le_compat; [exact Hrq | apply Qle_refl]. }
      rewrite <- Zle_Qle in Hz. lia. }
    destruct (Qle_bool rq 20).
    + apply (Hgoal 5%Z). lia.
    + apply (Hgoal 10%Z). lia.
  - apply Qltb_ge in Epos. apply int_nonpos in Epos. lia.
Qed.

(** With the stock within capacity, the suggestion overshoots the capacity
    by at most 9 units. *)
Lemma reorder_quantity_overshoot_bounded (velocity : Q)
    (current_stock max_stock lead_time_days safety_stock_days : Z) :
  (0 <= current_stock <= max_stock)%Z ->
  (ForecasterService.calculate_reorder_quantity velocity current_stock
     max_stock lead_time_days safety_stock_days + current_stock
   <= max_stock + 9)%Z.
Proof.
  intro Hcap. unfold ForecasterService.calculate_reorder_quantity.
  destruct (Qle_bool velocity 0); [lia|].
  set (rq0 := velocity * inject_Z (lead_time_days + safety_stock_days)
              - inject_Z current_stock).
  set (rq1 := if Py.Qltb (inject_Z max_stock) (inject_Z current_stock + rq0)
              then inject_Z (max_stock - current_stock) else rq0).
  assert (Hclamp : rq1 <= inject_Z (max_stock - current_stock)).
  { unfold rq1.
    destruct (Py.Qltb (inject_Z max_stock) (inject_Z current_stock + rq0)) eqn:E.
    - apply Qle_refl.
    - apply Qltb_ge in E. unfold Zminus.
      rewrite inject_Z_plus, inject_Z_opp. lra. }
  pose proof (rounding_adds_at_most_nine rq1 (max_stock - current_stock) Hclamp)
    as Hround.
  cbv zeta. fold rq0. fold rq1.
  specialize (Hround ltac:(lia)). lia.
Qed.

(** C1: with 97 units on hand, capacity 100 and velocity 10, the
    calculator returns 5, and 97 + 5 exceeds the capacity; the monitor
    builds this very suggestion for a product with 97 units in stock and
    300 units sold in 30 days. *)
Theorem reorder_quantity_exceeds_capacity :
  ForecasterService.calculate_reorder_quantity 10 97 100 7 7 = 5%Z /\
  (ForecasterService.calculate_reorder_quantity 10 97 100 7 7 + 97 > 100)%Z /\
  exists s : stock_level,
    check_stock_levels (single_product_monitor 97 300) "loc_001" = Ok [s] /\
    sl_current_stock s = 97%Z /\ sl_max_stock s = 100%Z /\
    sl_suggested_reorder_quantity s = Some 5%Z.
Proof.
  split; [reflexivity|]. split; [reflexivity|].
  eexists. split; [vm_compute; reflexivity|]. repeat split.
Qed.

(** The two clamping forms agree: the [if] of the code computes the
    minimum of the contract. *)
Lemma clamp_is_min (velocity : Q)
    (current_stock max_stock lead_time_days safety_stock_days : Z) :
  let rq0 := velocity * inject_Z (lead_time_days + safety_stock_days)
             - inject_Z current_stock in
  (if Py.Qltb (inject_Z max_stock) (inject_Z current_stock + rq0)
   then inject_Z (max_stock - current_stock) else rq0)
  == clamped_quantity velocity current_stock max_stock
       lead_time_days safety_stock_days.
Proof.
  intro rq0. unfold clamped_quantity. fold rq0.
  destruct (Py.Qltb (inject_Z max_stock) (inject_Z current_stock + rq0)) eqn:E.
  - apply Qltb_lt in E. rewrite Q.min_r by lra.
    unfold Zminus. rewrite inject_Z_plus, inject_Z_opp. lra.
  - apply Qltb_ge in E. rewrite Q.min_l by lra. reflexivity.
Qed.

Lemma floordiv_integral (rq : Q) (n c : positive) (a : Z) :
  rq == inject_Z a ->
  Py.floordiv (rq + (Zpos n # 1)) (Zpos c # 1)
  = inject_Z ((a + Zpos n) / Zpos c).
Proof.
  intro H. unfold Py.floordiv. f_equal.
  assert (E : (rq + (Zpos n # 1)) / (Zpos c # 1) == (a + Zpos n) # c).
  { rewrite H. unfold Qdiv, Qinv, Qmult, Qplus, Qeq. simpl. lia. }
  rewrite E. reflexivity.
Qed.

Lemma int_inject_mult_pos (k : Z) (c : positive) :
  Py.int (inject_Z k * (Zpos c # 1)) = (k * Zpos c)%Z.
Proof. exact (int_inject_mult k (Zpos c)). Qed.

(** When the clamped quantity is a positive whole number, the result is
    the least multiple of 5 (up to 20) or of 10 (above 20) not below it. *)
Lemma reorder_quantity_rounds_up_integral (velocity : Q)
    (current_stock max_stock lead_time_days safety_stock_days n : Z) :
  0 < velocity ->
  clamped_quantity velocity current_stock max_stock
    lead_time_days safety_stock_days == inject_Z n ->
  (0 < n)%Z ->
  let r := ForecasterService.calculate_reorder_quantity velocity current_stock
             max_stock lead_time_days safety_stock_days in
  ((n <= 20)%Z -> (r mod 5 = 0)%Z /\ (n <= r < n + 5)%Z) /\
  ((20 < n)%Z -> (r mod 10 = 0)%Z /\ (n <= r < n + 10)%Z).
Proof.
  intros Hv Hq Hn r. subst r.
  unfold ForecasterService.calculate_reorder_quantity.
  apply Qle_bool_gt in Hv. rewrite Hv. cbv zeta.
  pose proof (clamp_is_min velocity current_stock max_stock
                lead_time_days safety_stock_days) as Hmin.
  cbv zeta in Hmin.
  set (rq1 := if Py.Qltb _ _ then _ else _) in *.
  rewrite Hq in Hmin. clearbody rq1.
  assert (Hpos : Py.Qltb 0 rq1 = true).
  { apply Qltb_lt. rewrite Hmin. unfold Qlt. simpl. lia. }
  rewrite Hpos.
  destruct (Qle_bool rq1 20) eqn:E.
  - apply Qle_bool_iff in E. rewrite Hmin in E.
    assert (Hn20 : (n <= 20)%Z) by (revert E; unfold Qle; simpl; lia).
    rewrite (floordiv_integral rq1 4 5 n Hmin).
    rewrite (int_inject_mult_pos _ 5).
    split; [intros _ | lia].
    pose proof (Z.div_mod (n + 4) 5 ltac:(lia)).
    pose proof (Z.mod_pos_bound (n + 4) 5 ltac:(lia)).
    rewrite Z.max_r by lia. rewrite Z.mod_mul by lia. lia.
  - apply Qle_bool_gt in E. rewrite Hmin in E.
    assert (Hn20 : (20 < n)%Z) by (revert E; unfold Qlt; simpl; lia).
    rewrite (floordiv_integral rq1 9 10 n Hmin).
    rewrite (int_inject_mult_pos _ 10).
    split; [lia | intros _].
    pose proof (Z.div_mod (n + 9) 10 ltac:(lia)).
    pose proof (Z.mod_pos_bound (n + 9) 10 ltac:(lia)).
    rewrite Z.max_r by lia. rewrite Z.mod_mul by lia. lia.
Qed.

(** C2: a positive clamped quantity of one half is returned as 0 instead
    of 5, one of 5.5 as 5 instead of 10, and one of 20.5 as 20 instead of
    30: on a fractional quantity the result falls below the quantity.  The
    monitor meets the case for a product with 1 unit on hand and 3 units
    sold in 30 days (velocity 0.1, clamped quantity 0.4, suggestion 0). *)
Theorem reorder_quantity_rounds_fraction_down :
  (clamped_quantity (1 # 4) 3 100 7 7 == 1 # 2 /\
   ForecasterService.calculate_reorder_quantity (1 # 4) 3 100 7 7 = 0%Z) /\
  (clamped_quantity (3 # 4) 5 100 7 7 == 11 # 2 /\
   ForecasterService.calculate_reorder_quantity (3 # 4) 5 100 7 7 = 5%Z) /\
  (clamped_quantity (7 # 4) 4 100 7 7 == 41 # 2 /\
   ForecasterService.calculate_reorder_quantity (7 # 4) 4 100 7 7 = 20%Z) /\
  (exists s : stock_level,
     check_stock_levels (single_product_monitor 1 3) "loc_001" = Ok [s] /\
     sl_velocity s = Some (1 # 10) /\
     clamped_quantity (1 # 10) (sl_current_stock s) (sl_max_stock s) 7 7
       == 2 # 5 /\
     sl_suggested_reorder_quantity s = Some 0%Z).
Proof.
  repeat (split; [split; reflexivity|]).
  eexists. split; [vm_compute; reflexivity|]. repeat split.
Qed.

(** ** Classification inside [check_stock_levels] *)

Lemma percentage_of_hundred (current_stock : Z) :
  inject_Z current_stock / inject_Z 100 * 100 == inject_Z current_stock.
Proof. unfold Qeq. simpl. lia. Qed.

Lemma true_div_hundred (current_stock : Z) :
  true_div current_stock 100 = Ok (inject_Z current_stock / inject_Z 100).
Proof. reflexivity. Qed.

(** ** Snapshots built by [check_stock_levels] *)

Section Snapshots.

Variable self : MonitorService.

Lemma check_stock_levels_step_capacity (location_id : string)
    (catalog : list catalog_item) (sales_history : list order)
    (results : result (list stock_level)) (inv_item : inventory_count) :
  all_capacity_hundred results ->
  all_capacity_hundred
    (check_stock_levels_step self location_id catalog sales_history
       results inv_item).
Proof.
  intros [stock_levels [-> Hall]]. unfold check_stock_levels_step.
  cbn [bind].
  destruct (find _ catalog) as [catalog_item |].
  - rewrite true_div_hundred. cbn [bind].
    eexists. split; [reflexivity|].
    apply Forall_app. split; [exact Hall|].
    constructor; [|constructor]. split; simpl.
    + reflexivity.
    + apply percentage_of_hundred.
  - exists stock_levels. split; [reflexivity | exact Hall].
Qed.

Lemma check_stock_levels_loop_capacity (location_id : string)
    (catalog : list catalog_item) (sales_history : list order)
    (inventory : list inventory_count) :
  forall results,
    all_capacity_hundred results ->
    all_capacity_hundred
      (fold_left (check_stock_levels_step self location_id catalog
                    sales_history) inventory results).
Proof.
  induction inventory as [| inv_item rest IH]; intros results H; simpl.
  - exact H.
  - apply IH. now apply check_stock_levels_step_capacity.
Qed.

End Snapshots.

(** On doubles the percentage stays within 2^-40 of the stock count for
    every count up to 1000. *)
Lemma binary64_percentage_table :
  forallb (fun k => Binary64.within Binary64.tolerance
                      (Binary64.stock_percentage (Z.of_nat k) 100)
                      (Z.of_nat k))
          (seq 0 1001) = true.
Proof. vm_compute. reflexivity. Qed.

Lemma binary64_percentage_close (n : Z) :
  (0 <= n <= 1000)%Z ->
  Binary64.within Binary64.tolerance (Binary64.stock_percentage n 100) n = true.
Proof.
  intro Hn. pose proof binary64_percentage_table as Htable.
  rewrite forallb_forall in Htable.
  specialize (Htable (Z.to_nat n)).
  rewrite Z2Nat.id in Htable by lia.
  apply Htable. apply in_seq. lia.
Qed.

(** C10, as stated, fails: for a product with 7 units on hand the snapshot
    has capacity 100 and stock count 7, but the double computed by
    [(7 / 100) * 100] is not 7. *)
Lemma stock_percentage_of_seven_is_not_seven :
  exists s : stock_level,
    check_stock_levels (single_product_monitor 7 30) "loc_001" = Ok [s] /\
    sl_current_stock s = 7%Z /\ sl_max_stock s = 100%Z /\
    Binary64.eq_int
      (Binary64.stock_percentage (sl_current_stock s) (sl_max_stock s))
      (sl_current_stock s) = false.
Proof.
  eexists. split; [vm_compute; reflexivity|]. repeat split.
Qed.

(** C10, amended: [check_stock_levels] returns normally, every snapshot it
    builds has capacity 100 whatever the provider reports, its percentage
    equals its stock count in exact arithmetic, and the double the code
    computes is within 2^-40 of the count for counts up to 1000. *)
Theorem check_stock_levels_capacity_constant (self : MonitorService)
    (location_id : string) :
  (exists stock_levels : list stock_level,
     check_stock_levels self location_id = Ok stock_levels /\
     Forall (fun s => sl_max_stock s = 100%Z /\
                      sl_stock_percentage s == inject_Z (sl_current_stock s))
            stock_levels) /\
  (forall n : Z, (0 <= n <= 1000)%Z ->
     Binary64.within Binary64.tolerance
       (Binary64.stock_percentage n 100) n = true).
Proof.
  split; [| exact binary64_percentage_close].
  unfold check_stock_levels.
  apply (check_stock_levels_loop_capacity self).
  exists []. split; [reflexivity | constructor].
Qed.

Lemma check_stock_levels_capacity_constant_witness :
  Binary64.within Binary64.tolerance (Binary64.stock_percentage 7 100) 7 = true.
Proof.
  apply (check_stock_levels_capacity_constant default_monitor "loc_001").
  lia.
Defined.

(** ** Velocity estimator *)

Lemma round_half_even_comp (x y : Q) :
  x == y -> Py.round_half_even x = Py.round_half_even y.
Proof.
  intro H. unfold Py.round_half_even, Py.Qltb.
  assert (Hf : Qfloor x = Qfloor y) by (rewrite H; reflexivity).
  rewrite Hf.
  assert (Hr : x - inject_Z (Qfloor y) == y - inject_Z (Qfloor y))
    by (rewrite H; reflexivity).
  assert (E1 : Qle_bool (1 # 2) (x - inject_Z (Qfloor y))
               = Qle_bool (1 # 2) (y - inject_Z (Qfloor y)))
    by (rewrite Hr; reflexivity).
  assert (E2 : Qle_bool (x - inject_Z (Qfloor y)) (1 # 2)
               = Qle_bool (y - inject_Z (Qfloor y)) (1 # 2))
    by (rewrite Hr; reflexivity).
  rewrite E1, E2. reflexivity.
Qed.

Lemma round_comp (x y : Q) (ndigits : nat) :
  x == y -> Py.round x ndigits = Py.round y ndigits.
Proof.
  intro H. unfold Py.round. f_equal. f_equal.
  apply round_half_even_comp. rewrite H. reflexivity.
Qed.

(** The nearest integer is at distance at most one half. *)
Lemma round_half_even_near (x : Q) :
  Qabs (inject_Z (Py.round_half_even x) - x) <= 1 # 2.
Proof.
  pose proof (Qfloor_le x) as Hlo. pose proof (Qlt_floor x) as Hhi.
  rewrite inject_Z_plus in Hhi. change (inject_Z 1) with 1 in Hhi.
  unfold Py.round_half_even.
  set (f := Qfloor x) in *.
  apply Qabs_Qle_condition.
  destruct (Py.Qltb (x - inject_Z f) (1 # 2)) eqn:E1.
  { apply Qltb_lt in E1. split; lra. }
  apply Qltb_ge in E1.
  destruct (Py.Qltb (1 # 2) (x - inject_Z f)) eqn:E2.
  { apply Qltb_lt in E2. rewrite inject_Z_plus.
    change (inject_Z 1) with 1. split; lra. }
  apply Qltb_ge in E2.
  destruct (Z.even f);
    [| rewrite inject_Z_plus; change (inject_Z 1) with 1]; split; lra.
Qed.

(** [round(x, 2)] is a whole number of hundredths, at most half a
    hundredth away from [x]. *)
Lemma round_two_decimals (x : Q) :
  Py.round x 2 == inject_Z (Py.round_half_even (x * 100)) / 100 /\
  Qabs (Py.round x 2 - x) <= 1 # 200.
Proof.
  assert (E : Py.round x 2 == inject_Z (Py.round_half_even (x * 100)) / 100).
  { unfold Py.round. rewrite Qred_correct.
    change (Z.to_pos (10 ^ Z.of_nat 2)) with 100%positive.
    change (inject_Z (10 ^ Z.of_nat 2)) with 100.
    unfold Qeq. simpl. lia. }
  split; [exact E|]. rewrite E.
  pose proof (round_half_even_near (x * 100)) as H.
  apply Qabs_Qle_condition in H. apply Qabs_Qle_condition.
  destruct H as [H1 H2]. unfold Qdiv. change (/ 100) with (1 # 100).
  split; lra.
Qed.

Section Velocity.

Variable product_id : string.

(** The record timestamp takes no part in the computation. *)
Lemma calculate_velocity_ignores_timestamps (created_at : string)
    (sales_history : list order) (days : Z) :
  ForecasterService.calculate_velocity product_id
    (map (set_created_at created_at) sales_history) days
  = ForecasterService.calculate_velocity product_id sales_history days.
Proof.
  unfold ForecasterService.calculate_velocity,
    ForecasterService.count_total_units.
  generalize (Some 0). induction sales_history as [| o rest IH]; intro acc.
  - reflexivity.
  - simpl. apply IH.
Qed.

End Velocity.

(** ** The cases of tests/test_monitor.py *)

Example test_generate_alerts_fixtures :
  map (fun a => (alert_type a, severity a))
      (generate_alerts default_monitor
         [test_out_of_stock; test_critical_stock; test_low_stock;
          test_healthy_stock])
  = [(OUT_OF_STOCK, CRITICAL); (CRITICAL_STOCK, CRITICAL);
     (LOW_STOCK, WARNING)].
Proof. reflexivity. Qed.

Example test_status_determination :
  _determine_status default_monitor 0 0 = "out_of_stock" /\
  _determine_status default_monitor 3 3 = "critical" /\
  _determine_status default_monitor 15 15 = "low" /\
  _determine_status default_monitor 80 80 = "healthy".
Proof. repeat split. Qed.

Example test_calculate_reorder_quantity :
  ForecasterService.calculate_reorder_quantity 5 10 100 7 7 = 60%Z.
Proof. reflexivity. Qed.

Example test_demo_location_item_002 :
  exists s : stock_level,
    check_stock_levels (single_product_monitor 8 10) "demo_location" = Ok [s] /\
    sl_status s = "low" /\ sl_velocity s = Some (33 # 100) /\
    sl_days_until_stockout s = Some 24%Z /\
    sl_suggested_reorder_quantity s = Some 0%Z.
Proof. eexists. split; [vm_compute; reflexivity | repeat split]. Qed.

(** * Further properties of the forecaster *)

Lemma reorder_quantity_overshoot_bounded_witness :
  (ForecasterService.calculate_reorder_quantity 10 97 100 7 7 + 97
   <= 100 + 9)%Z.
Proof.
  apply (reorder_quantity_overshoot_bounded 10 97 100 7 7). lia.
Defined.

Lemma reorder_quantity_rounds_up_integral_witness :
  ForecasterService.calculate_reorder_quantity 5 10 100 7 7 = 60%Z.
Proof.
  assert (Hq : clamped_quantity 5 10 100 7 7 == inject_Z 60) by reflexivity.
  destruct (reorder_quantity_rounds_up_integral 5 10 100 7 7 60
              ltac:(reflexivity) Hq ltac:(lia)) as [_ H].
  destruct (H ltac:(lia)) as [Hmod Hrange].
  pose proof (Z.div_mod
                (ForecasterService.calculate_reorder_quantity 5 10 100 7 7) 10
                ltac:(lia)) as Hdiv.
  lia.
Defined.

Lemma reorder_suggested_when_days_nonzero_witness :
  map (fun a => (alert_type a, severity a))
      (generate_alerts default_monitor
         [mk_stock_level "item_001" "Premium Coffee Beans" "loc_001"
            45 100 45 "healthy" (Some 9) (Some 5%Z) (Some 60%Z)])
  = [(REORDER_SUGGESTED, INFO)].
Proof.
  apply (reorder_suggested_when_days_nonzero default_monitor _ 5 60);
    try reflexivity; try discriminate.
  - intro H. vm_compute in H. apply H. reflexivity.
  - intro H. vm_compute in H. apply H. reflexivity.
Defined.

Lemma Qfloor_lower (x : Q) (z : Z) : inject_Z z <= x -> (z <= Qfloor x)%Z.
Proof.
  intro H. rewrite <- (Qfloor_Z z). now apply Qfloor_resp_le.
Qed.

Lemma Qfloor_upper (x : Q) (z : Z) : x < inject_Z z -> (Qfloor x < z)%Z.
Proof.
  intro H. rewrite Zlt_Qlt. eapply Qle_lt_trans; [apply Qfloor_le | exact H].
Qed.

(** The value the rounding statement produces from a clamped quantity. *)
Lemma rounding_cases (rq : Q) :
  let r := Z.max 0 (Py.int (if Py.Qltb 0 rq then
                              if Qle_bool rq 20
                              then Py.floordiv (rq + 4) 5 * 5
                              else Py.floordiv (rq + 9) 10 * 10
                            else rq)) in
  (rq < 1 -> r = 0%Z) /\
  (1 <= rq -> rq <= 20 -> exists k, (1 <= k <= 4)%Z /\ r = (k * 5)%Z) /\
  (20 < rq -> exists k, (2 <= k)%Z /\ r = (k * 10)%Z).
Proof.
  intro r. subst r.
  destruct (Py.Qltb 0 rq) eqn:Epos.
  - apply Qltb_lt in Epos.
    destruct (Qle_bool rq 20) eqn:E20.
    + apply Qle_bool_iff in E20. unfold Py.floordiv.
      rewrite (int_inject_mult_pos _ 5).
      set (x := (rq + 4) / 5).
      assert (Hx : x == (rq + 4) * (1 # 5)) by reflexivity.
      repeat split.
      * intro H1. assert (Qfloor x < 1)%Z
          by (apply Qfloor_upper; rewrite Hx; change (inject_Z 1) with 1; lra).
        assert (0 <= Qfloor x)%Z
          by (apply Qfloor_lower; rewrite Hx; change (inject_Z 0) with 0; lra).
        lia.
      * intros H1 _. exists (Qfloor x).
        assert (1 <= Qfloor x)%Z
          by (apply Qfloor_lower; rewrite Hx; change (inject_Z 1) with 1; lra).
        assert (Qfloor x < 5)%Z
          by (apply Qfloor_upper; rewrite Hx; change (inject_Z 5) with 5; lra).
        lia.
      * intro H. exfalso. lra.
    + apply Qle_bool_gt in E20. unfold Py.floordiv.
      rewrite (int_inject_mult_pos _ 10).
      set (x := (rq + 9) / 10).
      assert (Hx : x == (rq + 9) * (1 # 10)) by reflexivity.
      repeat split.
      * intro H. exfalso. lra.
      * intros _ H. exfalso. lra.
      * intros _. exists (Qfloor x).
        assert (2 <= Qfloor x)%Z
          by (apply Qfloor_lower; rewrite Hx; change (inject_Z 2) with 2; lra).
        lia.
  - apply Qltb_ge in Epos. pose proof (int_nonpos rq Epos).
    repeat split; intros; try (exfalso; lra); lia.
Qed.

(** The suggested quantity is never negative, is always a multiple of 5,
    and is a multiple of 10 as soon as it exceeds 20. *)
Theorem reorder_quantity_granularity (velocity : Q)
    (current_stock max_stock lead_time_days safety_stock_days : Z) :
  let r := ForecasterService.calculate_reorder_quantity velocity current_stock
             max_stock lead_time_days safety_stock_days in
  (0 <= r)%Z /\ (r mod 5 = 0)%Z /\ ((20 < r)%Z -> (r mod 10 = 0)%Z).
Proof.
  intro r. subst r. unfold ForecasterService.calculate_reorder_quantity.
  destruct (Qle_bool velocity 0); [repeat split; lia|].
  cbv zeta. set (rq := if Py.Qltb (inject_Z max_stock) _ then _ else _).
  destruct (rounding_cases rq) as [H0 [H5 H10]]. cbv zeta in H0, H5, H10.
  destruct (Qlt_le_dec rq 1) as [Hlt | Hge].
  { rewrite (H0 Hlt). repeat split; lia. }
  destruct (Qlt_le_dec 20 rq) as [Hbig | Hsmall].
  - destruct (H10 Hbig) as [k [Hk ->]].
    repeat split; [lia | | intros _; apply Z.mod_mul; lia].
    replace (k * 10)%Z with (k * 2 * 5)%Z by lia. apply Z.mod_mul. lia.
  - destruct (H5 Hge Hsmall) as [k [Hk ->]].
    repeat split; [lia | apply Z.mod_mul; lia | lia].
Qed.

Lemma reorder_quantity_granularity_witness :
  (ForecasterService.calculate_reorder_quantity 5 10 100 7 7 mod 10 = 0)%Z.
Proof.
  apply (reorder_quantity_granularity 5 10 100 7 7). reflexivity.
Defined.

(** ** Velocity on histories that are not well formed *)

Section VelocityEdges.

Variable product_id : string.

Lemma velocity_line_loop_raised (items : list line_item) :
  fold_left (ForecasterService.velocity_line_step product_id) items None = None.
Proof. induction items as [| li rest IH]; simpl; trivial. Qed.

Lemma velocity_order_loop_raised (sales_history : list order) :
  fold_left (ForecasterService.velocity_order_step product_id)
            sales_history None = None.
Proof.
  induction sales_history as [| o rest IH]; simpl; trivial.
  unfold ForecasterService.velocity_order_step at 2.
  now rewrite velocity_line_loop_raised.
Qed.

Lemma velocity_line_loop_malformed (items : list line_item) (li : line_item) :
  In li items -> id_matches product_id li = true ->
  li_quantity li = QtyMalformed ->
  forall acc,
    fold_left (ForecasterService.velocity_line_step product_id) items acc
    = None.
Proof.
  induction items as [| x rest IH]; intros Hin Hm Hq acc; [contradiction|].
  simpl. destruct Hin as [-> | Hin].
  - assert (E : ForecasterService.velocity_line_step product_id acc li = None).
    { unfold ForecasterService.velocity_line_step.
      destruct acc; trivial. now rewrite Hm, Hq. }
    rewrite E. apply velocity_line_loop_raised.
  - now apply IH.
Qed.

Lemma count_total_units_malformed (sales_history : list order) :
  has_malformed_match product_id sales_history ->
  ForecasterService.count_total_units product_id sales_history = None.
Proof.
  intros [o [li [Ho [Hli [Hm Hq]]]]].
  unfold ForecasterService.count_total_units. generalize (Some 0).
  induction sales_history as [| x rest IH]; intro acc; [contradiction|].
  simpl. destruct Ho as [-> | Ho].
  - unfold ForecasterService.velocity_order_step at 2.
    rewrite (velocity_line_loop_malformed _ li Hli Hm Hq).
    apply velocity_order_loop_raised.
  - now apply IH.
Qed.

(** A quantity of the product that cannot be converted makes the whole
    estimate 0, whatever else the history holds and whatever the window. *)
Theorem calculate_velocity_malformed_is_zero (sales_history : list order)
    (days : Z) :
  has_malformed_match product_id sales_history ->
  ForecasterService.calculate_velocity product_id sales_history days = 0.
Proof.
  intro H. unfold ForecasterService.calculate_velocity.
  now rewrite count_total_units_malformed.
Qed.

Lemma count_total_units_never_sold (sales_history : list order) :
  never_sold product_id sales_history ->
  forall acc,
    fold_left (ForecasterService.velocity_order_step product_id)
              sales_history (Some acc) = Some acc.
Proof.
  induction 1 as [| o rest Ho _ IH]; intro acc; simpl; trivial.
  unfold ForecasterService.velocity_order_step at 2.
  assert (E : fold_left (ForecasterService.velocity_line_step product_id)
                        (order_line_items o) (Some acc) = Some acc).
  { induction Ho as [| li items Hli _ IHi]; simpl; trivial.
    now rewrite Hli. }
  rewrite E. apply IH.
Qed.

(** A product that appears in no line item has velocity 0, even when the
    quantities of other products cannot be converted. *)
Theorem calculate_velocity_never_sold_is_zero (sales_history : list order)
    (days : Z) :
  never_sold product_id sales_history ->
  ForecasterService.calculate_velocity product_id sales_history days = 0.
Proof.
  intro H. unfold ForecasterService.calculate_velocity,
             ForecasterService.count_total_units.
  rewrite (count_total_units_never_sold _ H 0).
  destruct (0 <? days)%Z; [| reflexivity].
  rewrite (round_comp (0 / inject_Z days) 0 2); [reflexivity|].
  unfold Qdiv. apply Qmult_0_l.
Qed.

End VelocityEdges.

Lemma calculate_velocity_malformed_is_zero_witness :
  ForecasterService.calculate_velocity "item_001"
    (test_sales_history ++
     [mk_order "order_3" "2024-01-03T00:00:00"
        [mk_line_item (Some "item_001") QtyMalformed]]) 2 = 0.
Proof.
  apply calculate_velocity_malformed_is_zero.
  exists (mk_order "order_3" "2024-01-03T00:00:00"
            [mk_line_item (Some "item_001") QtyMalformed]),
         (mk_line_item (Some "item_001") QtyMalformed).
  repeat split.
  - apply in_or_app. right. left. reflexivity.
  - left. reflexivity.
Defined.

Lemma calculate_velocity_never_sold_is_zero_witness :
  ForecasterService.calculate_velocity "item_009"
    (test_sales_history ++
     [mk_order "order_3" "2024-01-03T00:00:00"
        [mk_line_item (Some "item_001") QtyMalformed]]) 2 = 0.
Proof.
  apply calculate_velocity_never_sold_is_zero.
  repeat constructor.
Defined.

(** ** Sign of the velocity *)

Lemma round_half_even_nonneg (x : Q) :
  0 <= x -> (0 <= Py.round_half_even x)%Z.
Proof.
  intro H. assert (0 <= Qfloor x)%Z by (now apply Qfloor_lower).
  unfold Py.round_half_even.
  repeat match goal with
         | |- context [if ?c then _ else _] => destruct c
         end; lia.
Qed.

Lemma round_nonneg (x : Q) (ndigits : nat) : 0 <= x -> 0 <= Py.round x ndigits.
Proof.
  intro H. unfold Py.round. rewrite Qred_correct.
  assert (Hs : 0 <= inject_Z (10 ^ Z.of_nat ndigits)).
  { unfold Qle. simpl. pose proof (Z.pow_nonneg 10 (Z.of_nat ndigits)). lia. }
  pose proof (round_half_even_nonneg _ (Qmult_le_0_compat _ _ H Hs)) as Hr.
  unfold Qle. simpl. lia.
Qed.

Section VelocitySign.

Variable product_id : string.

Lemma velocity_line_loop_nonneg (items : list line_item) :
  Forall (fun li => forall q, li_quantity li = QtyNumber q -> 0 <= q) items ->
  forall t, 0 <= t ->
    match fold_left (ForecasterService.velocity_line_step product_id)
                    items (Some t) with
    | Some t' => 0 <= t'
    | None => True
    end.
Proof.
  induction 1 as [| li rest Hli _ IH]; intros t Ht; simpl; trivial.
  destruct (id_matches product_id li); [| now apply IH].
  destruct (li_quantity li) as [| q |] eqn:Eq; simpl.
  - apply IH. lra.
  - apply IH. specialize (Hli q eq_refl). lra.
  - now rewrite velocity_line_loop_raised.
Qed.

Lemma velocity_order_loop_nonneg (sales_history : list order) :
  quantities_nonneg sales_history ->
  forall t, 0 <= t ->
    match fold_left (ForecasterService.velocity_order_step product_id)
                    sales_history (Some t) with
    | Some t' => 0 <= t'
    | None => True
    end.
Proof.
  induction 1 as [| o rest Ho _ IH]; intros t Ht; simpl; trivial.
  unfold ForecasterService.velocity_order_step at 2.
  pose proof (velocity_line_loop_nonneg _ Ho t Ht) as Hline.
  destruct (fold_left _ (order_line_items o) (Some t)) as [t1 |].
  - now apply IH.
  - now rewrite velocity_order_loop_raised.
Qed.

(** When no recorded quantity is negative the velocity is never negative,
    for every window and also when the estimate falls back to 0. *)
Theorem calculate_velocity_nonneg (sales_history : list order) (days : Z) :
  quantities_nonneg sales_history ->
  0 <= ForecasterService.calculate_velocity product_id sales_history days.
Proof.
  intro H. unfold ForecasterService.calculate_velocity,
             ForecasterService.count_total_units.
  pose proof (velocity_order_loop_nonneg _ H 0 (Qle_refl 0)) as Hloop.
  destruct (fold_left _ sales_history (Some 0)) as [total |]; [| apply Qle_refl].
  apply round_nonneg.
  destruct (Z.ltb_spec 0 days); [| apply Qle_refl].
  apply Qle_shift_div_l.
  - unfold Qlt. simpl. lia.
  - now rewrite Qmult_0_l.
Qed.

End VelocitySign.

Lemma calculate_velocity_nonneg_witness :
  0 <= ForecasterService.calculate_velocity "item_001" test_sales_history 2.
Proof.
  apply calculate_velocity_nonneg.
  repeat constructor; intros q E; inversion E; discriminate.
Defined.

(** ** Anomaly detector *)

(** Both velocities of the detector come from one and the same total. *)
Lemma anomaly_velocities (product_id : string) (sales_history : list order) :
  exists total : Q,
    ForecasterService.calculate_velocity product_id sales_history 7
    = Py.round (total / 7) 2 /\
    ForecasterService.calculate_velocity product_id sales_history 30
    = Py.round (total / 30) 2.
Proof.
  unfold ForecasterService.calculate_velocity.
  destruct (ForecasterService.count_total_units product_id sales_history)
    as [total |].
  - exists total. split; reflexivity.
  - exists 0. split; reflexivity.
Qed.

(** A total divided by 7 exceeds the same total divided by 30 by more
    than half, rounding to hundredths included. *)
Lemma weekly_rate_exceeds_monthly_rate (total : Q) :
  let recent := Py.round (total / 7) 2 in
  let baseline := Py.round (total / 30) 2 in
  ~ baseline == 0 -> 1 # 2 < (recent - baseline) / baseline.
Proof.
  intros recent baseline Hb.
  destruct (round_two_decimals (total / 7)) as [_ Hr].
  destruct (round_two_decimals (total / 30)) as [Hk Hbn].
  fold recent in Hr. fold baseline in Hk, Hbn.
  set (k := Py.round_half_even (total / 30 * 100)) in Hk.
  apply Qabs_Qle_condition in Hr. apply Qabs_Qle_condition in Hbn.
  unfold Qdiv in Hr, Hbn, Hk.
  change (/ 7) with (1 # 7) in Hr. change (/ 30) with (1 # 30) in Hbn.
  change (/ 100) with (1 # 100) in Hk.
  destruct Hr as [Hr1 Hr2]. destruct Hbn as [Hb1 Hb2].
  assert (Hk0 : k <> 0%Z).
  { intro E. apply Hb. rewrite Hk, E. reflexivity. }
  destruct (Z_lt_le_dec 0 k) as [Hpos | Hneg].
  - assert (Hk1 : 1 <= inject_Z k) by (unfold Qle; simpl; lia).
    apply Qlt_shift_div_l; lra.
  - assert (Hk1 : inject_Z k <= -1) by (unfold Qle; simpl; lia).
    assert (E : (recent - baseline) / baseline
                == (baseline - recent) / (- baseline)).
    { field. exact Hb. }
    rewrite E. apply Qlt_shift_div_l; lra.
Qed.

(** The detector reports nothing exactly when the 30-day velocity is 0;
    in every other case it reports an anomaly, and always as an increase:
    both velocities divide the same total, once by 7 and once by 30. *)
Theorem detect_velocity_anomalies_always_increase (product_id : string)
    (sales_history : list order) :
  (ForecasterService.detect_velocity_anomalies product_id sales_history = None
   <-> ForecasterService.calculate_velocity product_id sales_history 30 == 0)
  /\
  (forall a,
     ForecasterService.detect_velocity_anomalies product_id sales_history
     = Some a ->
     ForecasterService.an_direction a = "increase").
Proof.
  destruct (anomaly_velocities product_id sales_history) as [total [Er Eb]].
  unfold ForecasterService.detect_velocity_anomalies. rewrite Er, Eb.
  destruct (Qeq_bool (Py.round (total / 30) 2) 0) eqn:E0.
  { apply Qeq_bool_iff in E0. split; [tauto | discriminate]. }
  assert (Hb : ~ Py.round (total / 30) 2 == 0).
  { intro H. apply Qeq_bool_iff in H. congruence. }
  pose proof (weekly_rate_exceeds_monthly_rate total Hb) as Hhalf.
  cbv zeta in Hhalf.
  set (c := (Py.round (total / 7) 2 - Py.round (total / 30) 2)
            / Py.round (total / 30) 2) in *.
  assert (Hc : 50 < c * 100) by lra.
  assert (Habs : Py.Qltb 50 (Py.abs (c * 100)) = true).
  { apply Qltb_lt. eapply Qlt_le_trans; [exact Hc | apply Qle_Qabs]. }
  assert (Hpos : Py.Qltb 0 (c * 100) = true) by (apply Qltb_lt; lra).
  rewrite Habs, Hpos. split.
  - split; [discriminate | intro H; contradiction].
  - intros a Ha. inversion Ha. reflexivity.
Qed.

Lemma detect_velocity_anomalies_always_increase_witness :
  exists a,
    ForecasterService.detect_velocity_anomalies "item_001" test_sales_history
    = Some a /\ ForecasterService.an_direction a = "increase".
Proof.
  eexists. split; [vm_compute; reflexivity|].
  eapply (detect_velocity_anomalies_always_increase
            "item_001" test_sales_history).
  vm_compute. reflexivity.
Defined.

(** ** Optimal stock levels *)

Lemma int_monotone_nonneg (x y : Q) :
  0 <= x -> x <= y -> (Py.int x <= Py.int y)%Z.
Proof.
  intros Hx Hxy. rewrite !int_floor_nonneg; [| lra | exact Hx].
  now apply Qfloor_resp_le.
Qed.

(** * Further properties of the monitor *)

Section MonitorPipeline.

Variable self : MonitorService.

Lemma find_in_catalog (catalog : list catalog_item) (id : string) :
  in_catalog catalog id
  = match find (fun c => String.eqb (cat_id c) id) catalog with
    | Some _ => true
    | None => false
    end.
Proof.
  unfold in_catalog. induction catalog as [| c rest IH]; simpl; trivial.
  destruct (String.eqb (cat_id c) id); simpl; trivial.
Qed.

(** One round of the loop appends nothing for a product missing from the
    catalog, and one fully computed dictionary otherwise. *)
Lemma check_stock_levels_step_shape (location_id : string)
    (catalog : list catalog_item) (sales_history : list order)
    (results : list stock_level) (inv_item : inventory_count) :
  exists new : list stock_level,
    check_stock_levels_step self location_id catalog sales_history
      (Ok results) inv_item = Ok (results ++ new) /\
    map sl_product_id new
    = (if in_catalog catalog (inv_catalog_object_id inv_item)
       then [inv_catalog_object_id inv_item] else []) /\
    Forall (fun s => sl_location_id s = location_id) new /\
    Forall (built_by_monitor self) new.
Proof.
  unfold check_stock_levels_step. cbn [bind].
  rewrite find_in_catalog.
  destruct (find _ catalog) as [catalog_item |].
  - rewrite true_div_hundred. cbn [bind].
    eexists. split; [reflexivity|]. split; [reflexivity|].
    split; constructor; try constructor; simpl; trivial.
    repeat split. eexists. repeat split.
  - exists []. rewrite app_nil_r. repeat split; constructor.
Qed.

Lemma check_stock_levels_loop_shape (location_id : string)
    (catalog : list catalog_item) (sales_history : list order)
    (inventory : list inventory_count) :
  forall results : list stock_level,
  exists new : list stock_level,
    fold_left (check_stock_levels_step self location_id catalog sales_history)
              inventory (Ok results) = Ok (results ++ new) /\
    map sl_product_id new
    = filter (in_catalog catalog) (map inv_catalog_object_id inventory) /\
    Forall (fun s => sl_location_id s = location_id) new /\
    Forall (built_by_monitor self) new.
Proof.
  induction inventory as [| inv_item rest IH]; intro results;
    cbn [fold_left map filter].
  - exists []. rewrite app_nil_r. repeat split; constructor.
  - destruct (check_stock_levels_step_shape location_id catalog sales_history
                results inv_item) as [new1 [E1 [Hid1 [Hloc1 Hb1]]]].
    rewrite E1.
    destruct (IH (results ++ new1)) as [new2 [E2 [Hid2 [Hloc2 Hb2]]]].
    exists (new1 ++ new2). rewrite E2, app_assoc.
    split; [reflexivity|]. split; [| split; apply Forall_app; auto].
    rewrite map_app, Hid1, Hid2.
    destruct (in_catalog catalog (inv_catalog_object_id inv_item)); reflexivity.
Qed.

Lemma check_stock_levels_shape (location_id : string) :
  exists stock_levels : list stock_level,
    check_stock_levels self location_id = Ok stock_levels /\
    map sl_product_id stock_levels
    = filter (in_catalog (get_catalog_items (square_service self) location_id))
             (map inv_catalog_object_id
                  (get_inventory_counts (square_service self) location_id)) /\
    Forall (fun s => sl_location_id s = location_id) stock_levels /\
    Forall (built_by_monitor self) stock_levels.
Proof.
  unfold check_stock_levels.
  destruct (check_stock_levels_loop_shape location_id
              (get_catalog_items (square_service self) location_id)
              (get_sales_history (square_service self) location_id 30)
              (get_inventory_counts (square_service self) location_id) [])
    as [new H].
  exists new. exact H.
Qed.

(** [check_stock_levels] returns one dictionary for each inventory entry
    whose product is in the catalog, in inventory order, and skips the
    others; every dictionary carries the location asked for. *)
Theorem check_stock_levels_products (location_id : string) :
  exists stock_levels : list stock_level,
    check_stock_levels self location_id = Ok stock_levels /\
    map sl_product_id stock_levels
    = filter (in_catalog (get_catalog_items (square_service self) location_id))
             (map inv_catalog_object_id
                  (get_inventory_counts (square_service self) location_id)) /\
    Forall (fun s => sl_location_id s = location_id) stock_levels /\
    (List.length stock_levels
     <= List.length (get_inventory_counts (square_service self) location_id))%nat.
Proof.
  destruct (check_stock_levels_shape location_id)
    as [stock_levels [E [Hid [Hloc _]]]].
  exists stock_levels. repeat split; trivial.
  rewrite <- (length_map sl_product_id), Hid.
  rewrite <- (length_map inv_catalog_object_id
                (get_inventory_counts (square_service self) location_id)).
  apply filter_length_le.
Qed.

(** The status of a dictionary and the alert generated for it agree
    whenever the status was computed by [_determine_status]. *)
Lemma status_agrees_with_alert (s : stock_level) :
  sl_status s
  = _determine_status self (sl_stock_percentage s) (sl_current_stock s) ->
  status_alert_agree (sl_status s)
    (map alert_type (generate_alerts self [s])).
Proof.
  intro Hs. rewrite Hs. unfold status_alert_agree, _determine_status.
  destruct (generate_alerts_single self s) as
    [a Hz Ht _ | a Hz Hc Ht _ | a Hz Hc Hl Ht _ | a Hz Hc Hl Hr Ht _
     | Hz Hc Hl Hr]; simpl; rewrite ?Ht.
  - rewrite Hz. simpl. tauto.
  - destruct (Z.eqb_spec (sl_current_stock s) 0); [contradiction|].
    apply Qle_bool_iff in Hc. rewrite Hc. tauto.
  - destruct (Z.eqb_spec (sl_current_stock s) 0); [contradiction|].
    destruct (Qle_bool _ (inject_Z (critical_threshold self))) eqn:Ec;
      [apply Qle_bool_iff in Ec; contradiction|].
    apply Qle_bool_iff in Hl. rewrite Hl. tauto.
  - destruct (Z.eqb_spec (sl_current_stock s) 0); [contradiction|].
    destruct (Qle_bool _ (inject_Z (critical_threshold self))) eqn:Ec;
      [apply Qle_bool_iff in Ec; contradiction|].
    destruct (Qle_bool _ (inject_Z (low_threshold self))) eqn:El;
      [apply Qle_bool_iff in El; contradiction|].
    tauto.
  - destruct (Z.eqb_spec (sl_current_stock s) 0); [contradiction|].
    destruct (Qle_bool _ (inject_Z (critical_threshold self))) eqn:Ec;
      [apply Qle_bool_iff in Ec; contradiction|].
    destruct (Qle_bool _ (inject_Z (low_threshold self))) eqn:El;
      [apply Qle_bool_iff in El; contradiction|].
    tauto.
Qed.

(** For every dictionary [check_stock_levels] builds, the status it
    reports and the alert [generate_alerts] raises agree: out_of_stock,
    critical and low each come with the alert of that name, and a healthy
    product gets no alert or a reorder suggestion. *)
Theorem check_stock_levels_status_matches_alert (location_id : string) :
  exists stock_levels : list stock_level,
    check_stock_levels self location_id = Ok stock_levels /\
    Forall (fun s => status_alert_agree (sl_status s)
                       (map alert_type (generate_alerts self [s])))
           stock_levels.
Proof.
  destruct (check_stock_levels_shape location_id)
    as [stock_levels [E [_ [_ Hb]]]].
  exists stock_levels. split; [exact E|].
  eapply Forall_impl; [| exact Hb].
  intros s [_ [_ [Hs _]]]. now apply status_agrees_with_alert.
Qed.

End MonitorPipeline.

Section AlertContents.

Variable self : MonitorService.

Lemma generate_alerts_flat (stock_levels : list stock_level) :
  generate_alerts self stock_levels
  = flat_map (fun s => generate_alerts self [s]) stock_levels.
Proof. unfold generate_alerts at 1. now rewrite generate_alerts_loop. Qed.

Lemma generate_alerts_single_identity (s : stock_level) :
  map (fun a => (product_id a, location_id a, current_stock a))
      (generate_alerts self [s])
  = if alerting self s
    then [(sl_product_id s, sl_location_id s, sl_current_stock s)]
    else [].
Proof.
  unfold generate_alerts, alerting. cbn [fold_left].
  unfold generate_alerts_step. cbv zeta.
  destruct (sl_current_stock s =? 0)%Z; [reflexivity|].
  destruct (Qle_bool _ (inject_Z (critical_threshold self))); [reflexivity|].
  destruct (Qle_bool _ (inject_Z (low_threshold self))); [reflexivity|].
  destruct (reorder_condition s); reflexivity.
Qed.

(** Alerts come out in the order of the snapshots, one for each snapshot
    some rule fires for, and carry that snapshot's product, location and
    stock count. *)
Theorem generate_alerts_follows_snapshots (stock_levels : list stock_level) :
  map (fun a => (product_id a, location_id a, current_stock a))
      (generate_alerts self stock_levels)
  = map (fun s => (sl_product_id s, sl_location_id s, sl_current_stock s))
        (filter (alerting self) stock_levels).
Proof.
  rewrite generate_alerts_flat.
  induction stock_levels as [| s rest IH]; [reflexivity|].
  cbn [flat_map filter]. rewrite map_app, IH, generate_alerts_single_identity.
  destruct (alerting self s); reflexivity.
Qed.

Lemma generate_alerts_single_severity (s : stock_level) :
  Forall (fun a =>
            severity a = match alert_type a with
                         | OUT_OF_STOCK | CRITICAL_STOCK => CRITICAL
                         | LOW_STOCK => WARNING
                         | REORDER_SUGGESTED | VELOCITY_ANOMALY => INFO
                         end /\
            (current_stock a = 0%Z <-> alert_type a = OUT_OF_STOCK))
         (generate_alerts self [s]).
Proof.
  unfold generate_alerts. cbn [fold_left].
  unfold generate_alerts_step. cbv zeta.
  destruct (Z.eqb_spec (sl_current_stock s) 0) as [Hz | Hz].
  { constructor; [| constructor]. simpl. tauto. }
  repeat match goal with
         | |- context [if ?c then _ else _] => destruct c
         end;
    try apply Forall_nil;
    (constructor; [| constructor]); simpl;
    (split; [reflexivity | split; [intro; contradiction | discriminate]]).
Qed.

(** The severity of an alert is fixed by its type (out_of_stock and
    critical_stock are critical, low_stock is a warning, reorder_suggested
    is informational), and an alert reports a stock of 0 exactly when it
    is an out_of_stock alert. *)
Theorem generate_alerts_severity_by_type (stock_levels : list stock_level) :
  Forall (fun a =>
            severity a = match alert_type a with
                         | OUT_OF_STOCK | CRITICAL_STOCK => CRITICAL
                         | LOW_STOCK => WARNING
                         | REORDER_SUGGESTED | VELOCITY_ANOMALY => INFO
                         end /\
            (current_stock a = 0%Z <-> alert_type a = OUT_OF_STOCK))
         (generate_alerts self stock_levels).
Proof.
  rewrite generate_alerts_flat. apply Forall_flat_map.
  apply Forall_forall. intros s _. apply generate_alerts_single_severity.
Qed.

End AlertContents.

(** * Properties of the HTTP layer and of the daily summary *)

Lemma count_where_loop {A : Type} (p : A -> bool) (xs : list A) :
  forall total : nat,
    fold_left (fun total x => if p x then (total + 1)%nat else total) xs total
    = (total + List.length (filter p xs))%nat.
Proof.
  induction xs as [| x rest IH]; intro total; simpl; [lia|].
  rewrite IH. destruct (p x); simpl; lia.
Qed.

Lemma count_where_filter {A : Type} (p : A -> bool) (xs : list A) :
  count_where p xs = List.length (filter p xs).
Proof. unfold count_where. now rewrite count_where_loop. Qed.

Lemma count_where_cons {A : Type} (p : A -> bool) (x : A) (xs : list A) :
  count_where p (x :: xs)
  = ((if p x then 1 else 0) + count_where p xs)%nat.
Proof. rewrite !count_where_filter. simpl. now destruct (p x). Qed.

Lemma status_is_eqb (status : string) (s : stock_level) :
  status_is status s = String.eqb (sl_status s) status.
Proof. reflexivity. Qed.

Lemma status_in_existsb (statuses : list string) (s : stock_level) :
  status_in statuses s = existsb (String.eqb (sl_status s)) statuses.
Proof. reflexivity. Qed.

Lemma count_where_le {A : Type} (p : A -> bool) (xs : list A) :
  (count_where p xs <= List.length xs)%nat.
Proof. rewrite count_where_filter. apply filter_length_le. Qed.

Section StatusCounts.

Variable self : MonitorService.

(** The status entry is the one [_determine_status] computes. *)
Let determined (s : stock_level) : Prop :=
  sl_status s
  = _determine_status self (sl_stock_percentage s) (sl_current_stock s).

Lemma built_by_monitor_determined (l : list stock_level) :
  Forall (built_by_monitor self) l -> Forall determined l.
Proof.
  apply Forall_impl. intros s [_ [_ [Hs _]]]. exact Hs.
Qed.

Lemma determine_status_values (stock_percentage : Q) (current_stock : Z) :
  let status := _determine_status self stock_percentage current_stock in
  status = "out_of_stock" \/ status = "critical" \/
  status = "low" \/ status = "healthy".
Proof.
  unfold _determine_status.
  repeat match goal with
         | |- context [if ?c then _ else _] => destruct c
         end; tauto.
Qed.

Lemma status_counts_partition (l : list stock_level) :
  Forall determined l ->
  (count_where (status_is "healthy") l + count_where (status_is "low") l
   + count_where (status_is "critical") l
   + count_where (status_is "out_of_stock") l = List.length l)%nat /\
  (count_where (status_is "healthy") l + count_where (status_is "low") l
   + count_where (status_in ["critical"; "out_of_stock"]) l
   = List.length l)%nat.
Proof.
  induction 1 as [| s rest Hs _ [IH1 IH2]]; [split; reflexivity|].
  rewrite !count_where_cons. cbn [List.length].
  rewrite !status_is_eqb, !status_in_existsb.
  pose proof (determine_status_values (sl_stock_percentage s)
                (sl_current_stock s)) as Hv.
  cbv zeta in Hv. rewrite <- Hs in Hv.
  destruct Hv as [E | [E | [E | E]]]; rewrite E; simpl; lia.
Qed.

Lemma alert_for_each_unhealthy (l : list stock_level) :
  Forall determined l ->
  (count_where (status_is "low") l
   + count_where (status_in ["critical"; "out_of_stock"]) l
   <= List.length (generate_alerts self l))%nat.
Proof.
  intro H. rewrite generate_alerts_flat.
  induction H as [| s rest Hs _ IH]; [unfold count_where; simpl; lia|].
  rewrite !count_where_cons. cbn [flat_map]. rewrite length_app.
  pose proof (status_agrees_with_alert self s Hs) as Hagree.
  rewrite <- (length_map alert_type (generate_alerts self [s])).
  rewrite !status_is_eqb, !status_in_existsb.
  destruct Hagree as [[E T] | [[E T] | [[E T] | [E T]]]];
    rewrite E; try rewrite T; simpl; lia.
Qed.

(** The four status counts of the inventory summary add up to the number
    of products, so [needs_attention] is every product that is not
    healthy. *)
Theorem inventory_summary_partitions (location_id : string) :
  exists summary : InventoryApi.inventory_summary,
    InventoryApi.get_inventory_summary self location_id = Http200 summary /\
    (InventoryApi.healthy summary + InventoryApi.low_stock summary
     + InventoryApi.critical summary + InventoryApi.out_of_stock summary
     = InventoryApi.total_products summary)%nat /\
    (InventoryApi.healthy summary + InventoryApi.needs_attention summary
     = InventoryApi.total_products summary)%nat.
Proof.
  destruct (check_stock_levels_shape self location_id)
    as [stock_levels [E [_ [_ Hb]]]].
  unfold InventoryApi.get_inventory_summary. rewrite E.
  eexists. split; [reflexivity|]. simpl.
  destruct (status_counts_partition stock_levels
              (built_by_monitor_determined _ Hb)) as [H _].
  lia.
Qed.

(** In the daily summary healthy, low_stock and critical add up to
    total_products, every product that is not healthy accounts for an
    alert, and neither alerts nor reorder suggestions outnumber the
    products. *)
Theorem daily_summary_consistent :
  exists d : Jobs.summary_data,
    Jobs.daily_summary self = Ok d /\
    (Jobs.sd_healthy d + Jobs.sd_low_stock d + Jobs.sd_critical d
     = Jobs.sd_total_products d)%nat /\
    (Jobs.sd_low_stock d + Jobs.sd_critical d
     <= Jobs.sd_alerts_generated d)%nat /\
    (Jobs.sd_alerts_generated d <= Jobs.sd_total_products d)%nat /\
    (Jobs.sd_reorders_suggested d <= Jobs.sd_total_products d)%nat.
Proof.
  unfold Jobs.daily_summary.
  set (consistent := fun d : Jobs.summary_data =>
    (Jobs.sd_healthy d + Jobs.sd_low_stock d + Jobs.sd_critical d
     = Jobs.sd_total_products d)%nat /\
    (Jobs.sd_low_stock d + Jobs.sd_critical d
     <= Jobs.sd_alerts_generated d)%nat /\
    (Jobs.sd_alerts_generated d <= Jobs.sd_total_products d)%nat /\
    (Jobs.sd_reorders_suggested d <= Jobs.sd_total_products d)%nat).
  assert (Hloop : forall locations d0, consistent d0 ->
            exists d, fold_left (Jobs.daily_summary_step self) locations (Ok d0)
                      = Ok d /\ consistent d).
  { induction locations as [| location_id rest IH]; intros d0 H0.
    - exists d0. split; [reflexivity | exact H0].
    - cbn [fold_left]. unfold Jobs.daily_summary_step at 2. cbn [bind].
      destruct (check_stock_levels_shape self location_id)
        as [stock_levels [E [_ [_ Hb]]]].
      apply built_by_monitor_determined in Hb.
      rewrite E. cbn [bind]. apply IH.
      destruct (status_counts_partition stock_levels Hb) as [_ Hpart].
      pose proof (alert_for_each_unhealthy stock_levels Hb) as Halerts.
      pose proof (count_where_le Jobs.reorder_is_suggested stock_levels).
      assert (Hmost : (List.length (generate_alerts self stock_levels)
                       <= List.length stock_levels)%nat).
      { rewrite generate_alerts_flat. clear.
        induction stock_levels as [| s rest IH]; simpl; [lia|].
        rewrite length_app.
        destruct (generate_alerts_single self s); simpl; lia. }
      destruct H0 as [H1 [H2 [H3 H4]]]. unfold consistent. simpl. lia. }
  apply Hloop. unfold consistent. simpl. lia.
Qed.

End StatusCounts.

(** ** The alerts endpoint *)

Section AlertsEndpoint.

Variables uuid4 now : nat -> string.
Variable monitor_service : MonitorService.

Lemma convert_alerts_unacknowledged (alert_creates : list AlertCreate) :
  forall i,
    Forall (fun a => acknowledged a = false)
           (convert_alerts uuid4 now i alert_creates).
Proof.
  induction alert_creates as [| ac rest IH]; intro i; simpl; constructor;
    [reflexivity | apply IH].
Qed.

Lemma convert_alerts_base (alert_creates : list AlertCreate) :
  forall i,
    map alert_base (convert_alerts uuid4 now i alert_creates) = alert_creates.
Proof.
  induction alert_creates as [| ac rest IH]; intro i; simpl; [reflexivity|].
  now rewrite IH.
Qed.

Lemma filter_unacknowledged (alerts : list Alert) (wanted : bool) :
  Forall (fun a => acknowledged a = false) alerts ->
  filter (fun a => Bool.eqb (acknowledged a) wanted) alerts
  = if wanted then [] else alerts.
Proof.
  induction 1 as [| a rest Ha _ IH]; [now destruct wanted|].
  simpl. rewrite Ha, IH. now destruct wanted.
Qed.

Lemma filter_keeps_unacknowledged (p : Alert -> bool) (alerts : list Alert) :
  Forall (fun a => acknowledged a = false) alerts ->
  Forall (fun a => acknowledged a = false) (filter p alerts).
Proof.
  intro H. apply Forall_forall. intros a Ha.
  apply filter_In in Ha. rewrite Forall_forall in H. now apply H.
Qed.

(** Every alert the endpoint builds is unacknowledged: asking for
    acknowledged alerts returns an empty list, and asking for
    unacknowledged ones returns what the query without that filter
    returns. *)
Theorem get_alerts_acknowledged_filter (location_id severity : option string) :
  AlertsApi.get_alerts uuid4 now monitor_service location_id severity
    (Some true) = Http200 [] /\
  AlertsApi.get_alerts uuid4 now monitor_service location_id severity
    (Some false)
  = AlertsApi.get_alerts uuid4 now monitor_service location_id severity None.
Proof.
  unfold AlertsApi.get_alerts. cbv zeta.
  set (location := match location_id with
                   | Some l => if String.eqb l "" then "demo_location" else l
                   | None => "demo_location"
                   end).
  destruct (check_stock_levels_shape monitor_service location)
    as [stock_levels [E _]].
  rewrite E.
  set (alerts := convert_alerts uuid4 now 0
                   (generate_alerts monitor_service stock_levels)).
  assert (H : Forall (fun a => acknowledged a = false) alerts)
    by apply convert_alerts_unacknowledged.
  set (filtered := match severity with
                   | Some sv => if String.eqb sv "" then alerts else _
                   | None => alerts
                   end).
  assert (Hf : Forall (fun a => acknowledged a = false) filtered).
  { unfold filtered. destruct severity as [sv |]; [| exact H].
    destruct (String.eqb sv ""); [exact H|].
    now apply filter_keeps_unacknowledged. }
  split; f_equal; now rewrite filter_unacknowledged.
Qed.

(** Without filters the endpoint returns one alert for each alert
    [generate_alerts] creates for the location, in the same order; with no
    location given it is the location "demo_location". *)
Theorem get_alerts_unfiltered (location_id : string) :
  location_id <> "" ->
  exists stock_levels alerts,
    check_stock_levels monitor_service location_id = Ok stock_levels /\
    AlertsApi.get_alerts uuid4 now monitor_service (Some location_id)
      None None = Http200 alerts /\
    map alert_base alerts = generate_alerts monitor_service stock_levels /\
    AlertsApi.get_alerts uuid4 now monitor_service None None None
    = AlertsApi.get_alerts uuid4 now monitor_service (Some "demo_location")
        None None.
Proof.
  intro Hloc.
  destruct (check_stock_levels_shape monitor_service location_id)
    as [stock_levels [E _]].
  exists stock_levels,
         (convert_alerts uuid4 now 0
            (generate_alerts monitor_service stock_levels)).
  unfold AlertsApi.get_alerts. cbv zeta.
  apply String.eqb_neq in Hloc. rewrite Hloc, E.
  repeat split. apply convert_alerts_base.
Qed.

(** The severity filter compares with the lower-case value of the
    enumeration and is not validated: any other non-empty string, such as
    "CRITICAL", selects nothing. *)
Theorem get_alerts_unknown_severity (location_id : option string)
    (severity : string) (acknowledged_filter : option bool) :
  severity <> "" -> severity <> "info" -> severity <> "warning" ->
  severity <> "critical" ->
  AlertsApi.get_alerts uuid4 now monitor_service location_id (Some severity)
    acknowledged_filter = Http200 [].
Proof.
  intros H0 Hi Hw Hc. unfold AlertsApi.get_alerts. cbv zeta.
  set (location := match location_id with
                   | Some l => if String.eqb l "" then "demo_location" else l
                   | None => "demo_location"
                   end).
  destruct (check_stock_levels_shape monitor_service location)
    as [stock_levels [E _]].
  rewrite E. apply String.eqb_neq in H0. rewrite H0.
  set (alerts := convert_alerts uuid4 now 0 _).
  assert (Hnone : filter (fun a => String.eqb
                                     (AlertSeverity_value (alert_severity a))
                                     severity) alerts = []).
  { induction alerts as [| a rest IH]; [reflexivity|]. simpl. rewrite IH.
    assert (E' : String.eqb (AlertSeverity_value (alert_severity a)) severity
                 = false).
    { apply String.eqb_neq. intro Heq.
      destruct (alert_severity a); simpl in Heq; congruence. }
    now rewrite E'. }
  rewrite Hnone. destruct acknowledged_filter; reflexivity.
Qed.

End AlertsEndpoint.

Lemma get_alerts_unfiltered_witness :
  exists alerts,
    AlertsApi.get_alerts (fun _ => "id") (fun _ => "2024-01-31T00:00:00")
      (single_product_monitor 8 10) (Some "loc_001") None None
    = Http200 alerts /\
    map (fun a => alert_type (alert_base a)) alerts = [LOW_STOCK].
Proof.
  destruct (get_alerts_unfiltered (fun _ => "id")
              (fun _ => "2024-01-31T00:00:00")
              (single_product_monitor 8 10) "loc_001")
    as [stock_levels [alerts [E [H [Hbase _]]]]]; [discriminate|].
  exists alerts. split; [exact H|].
  rewrite <- (map_map alert_base alert_type), Hbase.
  vm_compute in E. injection E as <-. reflexivity.
Defined.

Lemma get_alerts_unknown_severity_witness :
  AlertsApi.get_alerts (fun _ => "id") (fun _ => "2024-01-31T00:00:00")
    (single_product_monitor 8 10) (Some "loc_001") (Some "CRITICAL") None
  = Http200 [].
Proof.
  apply get_alerts_unknown_severity; discriminate.
Defined.

(** * Properties of the notifiers *)

Lemma filter_split_length {A : Type} (p : A -> bool) (l : list A) :
  (List.length (filter p l) + List.length (filter (fun x => negb (p x)) l)
   = List.length l)%nat.
Proof.
  induction l as [| x rest IH]; simpl; [reflexivity|].
  destruct (p x); simpl; lia.
Qed.

Lemma filter_idempotent {A : Type} (p : A -> bool) (l : list A) :
  filter p (filter p l) = filter p l.
Proof.
  induction l as [| x rest IH]; simpl; [reflexivity|].
  destruct (p x) eqn:E; simpl; [rewrite E, IH; reflexivity | exact IH].
Qed.

Lemma filter_negb_filter {A : Type} (p : A -> bool) (l : list A) :
  filter (fun x => negb (p x)) (filter p l) = [].
Proof.
  induction l as [| x rest IH]; simpl; [reflexivity|].
  destruct (p x) eqn:E; simpl; [rewrite E; exact IH | exact IH].
Qed.

Lemma messages_shown_app (t1 t2 : list text_part) :
  messages_shown (t1 ++ t2) = messages_shown t1 ++ messages_shown t2.
Proof. unfold messages_shown. apply flat_map_app. Qed.

Lemma messages_shown_bullets (alerts : list Alert) :
  forall text : list text_part,
    messages_shown
      (fold_left (fun text alert =>
                    text ++ [Text "• "; MessageOf (alert_message alert);
                             Text newline])
                 alerts text)
    = messages_shown text ++ map alert_message alerts.
Proof.
  induction alerts as [| a rest IH]; intro text; simpl.
  - now rewrite app_nil_r.
  - rewrite IH, messages_shown_app, <- app_assoc. reflexivity.
Qed.

Section TwilioBatches.

Variable messages_create : nat -> list text_part -> string -> string -> bool.
Variable self : Twilio.TwilioNotifier.

Local Abbreviation requests_per_message :=
  (if Twilio.demo_mode self then 0%nat
   else List.length (Twilio.to_numbers self)).

Lemma send_loop_calls (body : list text_part) (numbers : list string) :
  forall (ok : bool) (calls : nat),
    snd (fold_left (fun (state : bool * nat) to_number =>
                      let (success, n) := state in
                      if messages_create n body (Twilio.from_number self)
                                         to_number
                      then (success, S n)
                      else (false, S n))
                   numbers (ok, calls))
    = (calls + List.length numbers)%nat.
Proof.
  induction numbers as [| x rest IH]; intros ok calls; simpl; [lia|].
  destruct (messages_create calls body (Twilio.from_number self) x);
    rewrite IH; lia.
Qed.

Lemma send_loop_all_succeed (body : list text_part) (numbers : list string) :
  (forall n b f t, messages_create n b f t = true) ->
  forall calls,
    fst (fold_left (fun (state : bool * nat) to_number =>
                      let (success, n) := state in
                      if messages_create n body (Twilio.from_number self)
                                         to_number
                      then (success, S n)
                      else (false, S n))
                   numbers (true, calls)) = true.
Proof.
  intro Hall. induction numbers as [| x rest IH]; intro calls; simpl;
    [reflexivity|].
  rewrite Hall. apply IH.
Qed.

Lemma send_alert_calls (alert : Alert) (calls : nat) :
  snd (Twilio.send_alert messages_create self alert calls)
  = (calls + requests_per_message)%nat.
Proof.
  unfold Twilio.send_alert.
  destruct (Twilio.demo_mode self); simpl; [lia|].
  destruct (Twilio.to_numbers self) as [| x rest] eqn:E; simpl; [lia|].
  unfold Twilio.send_to_numbers. rewrite send_loop_calls, E. reflexivity.
Qed.

Lemma send_message_calls (body : list text_part) (calls : nat) :
  snd (Twilio._send_message messages_create self body calls)
  = (calls + List.length (Twilio.to_numbers self))%nat.
Proof.
  unfold Twilio._send_message.
  destruct (Twilio.to_numbers self) as [| x rest] eqn:E; simpl; [lia|].
  unfold Twilio.send_to_numbers. rewrite send_loop_calls, E. reflexivity.
Qed.

Lemma send_critical_step_counts (counts : send_counts) (calls : nat)
    (a : Alert) :
  let r := Twilio.send_critical_step messages_create self (counts, calls) a in
  (success (fst r) + failed (fst r)
   = success counts + failed counts + 1)%nat /\
  snd r = (calls + requests_per_message)%nat.
Proof.
  unfold Twilio.send_critical_step.
  pose proof (send_alert_calls a calls) as Hcalls.
  destruct (Twilio.send_alert messages_create self a calls) as [sent calls1].
  simpl in Hcalls. subst calls1. destruct sent; simpl; lia.
Qed.

Lemma send_critical_loop (alerts : list Alert) :
  forall (counts : send_counts) (calls : nat),
    let r := fold_left (Twilio.send_critical_step messages_create self)
                       alerts (counts, calls) in
    (success (fst r) + failed (fst r)
     = success counts + failed counts + List.length alerts)%nat /\
    snd r = (calls + requests_per_message * List.length alerts)%nat.
Proof.
  induction alerts as [| a rest IH]; intros counts calls;
    cbn [fold_left List.length]; cbv zeta; [simpl; lia|].
  destruct (send_critical_step_counts counts calls a) as [H1 H2].
  cbv zeta in H1, H2.
  destruct (Twilio.send_critical_step messages_create self (counts, calls) a)
    as [counts1 calls1].
  simpl in H1, H2. subst calls1.
  destruct (IH counts1 (calls + requests_per_message)%nat) as [H3 H4].
  cbv zeta in H3, H4. rewrite H3, H4. lia.
Qed.

Lemma send_critical_loop_all_succeed (alerts : list Alert) :
  (forall n b f t, messages_create n b f t = true) ->
  Twilio.to_numbers self <> [] ->
  forall (counts : send_counts) (calls : nat),
    failed (fst (fold_left (Twilio.send_critical_step messages_create self)
                           alerts (counts, calls)))
    = failed counts.
Proof.
  intros Hall Hto. induction alerts as [| a rest IH]; intros counts calls;
    cbn [fold_left]; [reflexivity|].
  assert (Hsent : fst (Twilio.send_alert messages_create self a calls) = true).
  { unfold Twilio.send_alert. destruct (Twilio.demo_mode self); trivial.
    destruct (Twilio.to_numbers self); [contradiction|].
    unfold Twilio.send_to_numbers. now apply send_loop_all_succeed. }
  assert (Hstep : failed (fst (Twilio.send_critical_step messages_create self
                                 (counts, calls) a)) = failed counts).
  { unfold Twilio.send_critical_step.
    destruct (Twilio.send_alert messages_create self a calls) as [sent calls1].
    simpl in Hsent. subst sent. reflexivity. }
  destruct (Twilio.send_critical_step messages_create self (counts, calls) a)
    as [counts1 calls1].
  rewrite IH. exact Hstep.
Qed.

(** The batch send in one statement: what it reports and how many
    requests it makes. *)
Lemma send_batch_alerts_summary (alerts : list Alert) (calls : nat) :
  let r := Twilio.send_batch_alerts messages_create self alerts calls in
  (success (fst r) + failed (fst r) = List.length alerts)%nat /\
  snd r
  = (calls
     + requests_per_message
       * (List.length (filter (severity_is "critical") alerts)
          + match filter (fun a => negb (severity_is "critical" a)) alerts with
            | [] => 0
            | _ :: _ => 1
            end))%nat.
Proof.
  unfold Twilio.send_batch_alerts.
  destruct alerts as [| a0 rest0] eqn:Ealerts;
    [simpl; destruct (Twilio.demo_mode self); simpl; lia|].
  rewrite <- Ealerts. clear Ealerts.
  destruct (Twilio.demo_mode self) eqn:Edemo; [simpl; lia|].
  cbv zeta.
  pose proof (filter_split_length (severity_is "critical") alerts) as Hsplit.
  destruct (send_critical_loop (filter (severity_is "critical") alerts)
              (mk_send_counts 0 0) calls) as [H1 H2].
  cbv zeta in H1, H2. rewrite Edemo in H2.
  destruct (fold_left _ (filter (severity_is "critical") alerts) _)
    as [counts calls1].
  simpl in H1, H2. subst calls1.
  destruct (filter (fun a => negb (severity_is "critical" a)) alerts)
    as [| o others] eqn:Eothers.
  - simpl in *. lia.
  - pose proof (send_message_calls
                  (Twilio._format_summary_message (o :: others))
                  (calls + List.length (Twilio.to_numbers self)
                           * List.length
                               (filter (severity_is "critical") alerts)))
      as Hm.
    destruct (Twilio._send_message _ _ _ _) as [sent calls2].
    simpl in Hm. subst calls2.
    destruct sent; simpl in *; lia.
Qed.

(** Whatever the mode and whatever the requests do, every alert of a
    batch is reported exactly once, as sent or as failed. *)
Theorem twilio_batch_accounts_for_every_alert (alerts : list Alert)
    (calls : nat) :
  let counts :=
    fst (Twilio.send_batch_alerts messages_create self alerts calls) in
  (success counts + failed counts = List.length alerts)%nat.
Proof. exact (proj1 (send_batch_alerts_summary alerts calls)). Qed.

(** In demo mode a batch makes no request.  Otherwise it makes one
    request per recipient for each critical alert and one more per
    recipient for all the other alerts together. *)
Theorem twilio_batch_request_count (alerts : list Alert) (calls : nat) :
  snd (Twilio.send_batch_alerts messages_create self alerts calls)
  = (calls
     + (if Twilio.demo_mode self then 0
        else List.length (Twilio.to_numbers self))
       * (List.length (filter (severity_is "critical") alerts)
          + match filter (fun a => negb (severity_is "critical" a)) alerts with
            | [] => 0
            | _ :: _ => 1
            end))%nat.
Proof. exact (proj2 (send_batch_alerts_summary alerts calls)). Qed.

(** Outside demo mode and without recipients, every alert of a batch is
    reported failed and no request is made. *)
Theorem twilio_batch_without_recipients (alerts : list Alert) (calls : nat) :
  Twilio.demo_mode self = false -> Twilio.to_numbers self = [] ->
  Twilio.send_batch_alerts messages_create self alerts calls
  = (mk_send_counts 0 (List.length alerts), calls).
Proof.
  intros Hdemo Hto.
  destruct (send_batch_alerts_summary alerts calls) as [Htotal Hcalls].
  cbv zeta in Htotal, Hcalls.
  rewrite Hdemo, Hto in Hcalls. simpl in Hcalls.
  assert (Hsuccess :
            success (fst (Twilio.send_batch_alerts messages_create self
                            alerts calls)) = 0%nat).
  { unfold Twilio.send_batch_alerts. destruct alerts as [| a0 rest0] eqn:E;
      [reflexivity|]. rewrite <- E. rewrite Hdemo. cbv zeta.
    assert (Hloop : forall l counts n,
              success (fst (fold_left
                              (Twilio.send_critical_step messages_create self)
                              l (counts, n))) = success counts).
    { induction l as [| a rest IH]; intros counts n; cbn [fold_left];
        [reflexivity|].
      assert (Hstep : Twilio.send_critical_step messages_create self
                        (counts, n) a
                      = (mk_send_counts (success counts) (failed counts + 1),
                         n)).
      { unfold Twilio.send_critical_step, Twilio.send_alert.
        now rewrite Hdemo, Hto. }
      rewrite Hstep, IH. reflexivity. }
    specialize (Hloop (filter (severity_is "critical") alerts)
                      (mk_send_counts 0 0) calls).
    destruct (fold_left _ (filter (severity_is "critical") alerts) _)
      as [counts calls1].
    simpl in Hloop.
    destruct (filter (fun a => negb (severity_is "critical" a)) alerts);
      [exact Hloop|].
    unfold Twilio._send_message. rewrite Hto. exact Hloop. }
  destruct (Twilio.send_batch_alerts messages_create self alerts calls)
    as [[s f] n].
  simpl in *.
  assert (Hs : s = 0%nat) by exact Hsuccess.
  assert (Hf : f = List.length alerts) by lia.
  assert (Hn : n = calls) by lia.
  now rewrite Hs, Hf, Hn.
Qed.

(** When no request fails and a recipient is configured, every alert of a
    batch is reported sent. *)
Theorem twilio_batch_all_delivered (alerts : list Alert) (calls : nat) :
  (forall n b f t, messages_create n b f t = true) ->
  Twilio.to_numbers self <> [] ->
  fst (Twilio.send_batch_alerts messages_create self alerts calls)
  = mk_send_counts (List.length alerts) 0.
Proof.
  intros Hall Hto.
  pose proof (proj1 (send_batch_alerts_summary alerts calls)) as Htotal.
  cbv zeta in Htotal.
  assert (Hfailed :
            failed (fst (Twilio.send_batch_alerts messages_create self
                           alerts calls)) = 0%nat).
  { unfold Twilio.send_batch_alerts. destruct alerts as [| a0 rest0] eqn:E;
      [reflexivity|]. rewrite <- E.
    destruct (Twilio.demo_mode self); [reflexivity|]. cbv zeta.
    pose proof (send_critical_loop_all_succeed
                  (filter (severity_is "critical") alerts) Hall Hto
                  (mk_send_counts 0 0) calls) as Hloop.
    destruct (fold_left _ (filter (severity_is "critical") alerts) _)
      as [counts calls1].
    simpl in Hloop.
    destruct (filter (fun a => negb (severity_is "critical" a)) alerts)
      as [| o others]; [exact Hloop|].
    assert (Hsent : fst (Twilio._send_message messages_create self
                           (Twilio._format_summary_message (o :: others))
                           calls1) = true).
    { unfold Twilio._send_message.
      destruct (Twilio.to_numbers self); [contradiction|].
      unfold Twilio.send_to_numbers. now apply send_loop_all_succeed. }
    destruct (Twilio._send_message _ _ _ _) as [sent calls2].
    simpl in Hsent. subst sent. exact Hloop. }
  destruct (fst (Twilio.send_batch_alerts messages_create self alerts calls))
    as [s f].
  simpl in *.
  assert (Hf : f = 0%nat) by exact Hfailed.
  assert (Hs : s = List.length alerts) by lia.
  now rewrite Hs, Hf.
Qed.

End TwilioBatches.

(** The SMS summary shows the messages of the first five alerts, in
    order, and of no other alert. *)
Theorem twilio_summary_shows_first_five (alerts : list Alert) :
  messages_shown (Twilio._format_summary_message alerts)
  = map alert_message (firstn 5 alerts).
Proof.
  unfold Twilio._format_summary_message. cbv zeta.
  destruct (5 <? List.length alerts)%nat;
    rewrite ?messages_shown_app, messages_shown_bullets; simpl;
    rewrite ?app_nil_r; reflexivity.
Qed.

Lemma twilio_batch_without_recipients_witness :
  Twilio.send_batch_alerts (fun _ _ _ _ => true) (test_twilio false [])
    test_alerts 0
  = (mk_send_counts 0 3, 0%nat).
Proof.
  apply (twilio_batch_without_recipients (fun _ _ _ _ => true)
           (test_twilio false []) test_alerts 0); reflexivity.
Defined.

Lemma twilio_batch_all_delivered_witness :
  fst (Twilio.send_batch_alerts (fun _ _ _ _ => true)
         (test_twilio false ["+15551111111"; "+15552222222"]) test_alerts 0)
  = mk_send_counts 3 0.
Proof.
  apply (twilio_batch_all_delivered (fun _ _ _ _ => true)
           (test_twilio false ["+15551111111"; "+15552222222"])
           test_alerts 0).
  - reflexivity.
  - discriminate.
Defined.

(** ** Slack batch text *)

Lemma format_group_messages (heading : nat -> string) (shown : nat)
    (more : nat -> string) (closing text : list text_part)
    (group : list Alert) :
  messages_shown closing = [] ->
  messages_shown (Slack.format_group heading shown more closing text group)
  = messages_shown text ++ map alert_message (firstn shown group).
Proof.
  intro Hclosing. unfold Slack.format_group.
  destruct group as [| a rest] eqn:E.
  - rewrite firstn_nil. simpl. now rewrite app_nil_r.
  - rewrite <- E. cbv zeta.
    destruct (shown <? List.length group)%nat;
      rewrite ?messages_shown_app, messages_shown_bullets,
        messages_shown_app, Hclosing; simpl; rewrite ?app_nil_r; reflexivity.
Qed.

Lemma severity_groups_partition (alerts : list Alert) :
  (List.length (filter (severity_is "critical") alerts)
   + List.length (filter (severity_is "warning") alerts)
   + List.length (filter (severity_is "info") alerts)
   = List.length alerts)%nat.
Proof.
  induction alerts as [| a rest IH]; [reflexivity|].
  cbn [filter List.length].
  assert (E : forall value, severity_is value a
                = String.eqb (AlertSeverity_value (alert_severity a)) value)
    by reflexivity.
  rewrite !E. destruct (alert_severity a); simpl; lia.
Qed.

(** The Slack batch text counts every alert in exactly one of its three
    severity groups and shows the messages of the first three critical
    alerts, the first three warnings and the first two informational
    alerts, in that order: at most eight messages. *)
Theorem slack_batch_text_shows (alerts : list Alert) :
  let critical := filter (severity_is "critical") alerts in
  let warnings := filter (severity_is "warning") alerts in
  let info := filter (severity_is "info") alerts in
  messages_shown (Slack._format_batch_payload alerts)
  = map alert_message
        (firstn 3 critical ++ firstn 3 warnings ++ firstn 2 info) /\
  (List.length (messages_shown (Slack._format_batch_payload alerts)) <= 8)%nat
  /\
  (List.length critical + List.length warnings + List.length info
   = List.length alerts)%nat.
Proof.
  intros critical warnings info.
  assert (E : messages_shown (Slack._format_batch_payload alerts)
              = map alert_message
                    (firstn 3 critical ++ firstn 3 warnings ++ firstn 2 info)).
  { unfold Slack._format_batch_payload. cbv zeta.
    fold critical warnings info.
    rewrite !format_group_messages by reflexivity.
    simpl messages_shown at 1. rewrite !map_app, <- app_assoc. reflexivity. }
  split; [exact E|]. split; [| apply severity_groups_partition].
  rewrite E, length_map, !length_app.
  pose proof (firstn_le_length 3 critical).
  pose proof (firstn_le_length 3 warnings).
  pose proof (firstn_le_length 2 info).
  pose proof (length_firstn 3 critical). pose proof (length_firstn 3 warnings).
  pose proof (length_firstn 2 info). lia.
Qed.

(** ** The scheduled inventory check *)

Section InventoryCheckJob.

Variables uuid4 now : nat -> string.
Variable messages_create : nat -> list text_part -> string -> string -> bool.
Variable requests_post : nat -> string -> list text_part -> bool.
Variable monitor_service : MonitorService.
Variable twilio_notifier : Twilio.TwilioNotifier.
Variable slack_notifier : Slack.SlackNotifier.

Lemma slack_batch_counts (alerts : list Alert) (posts : nat) :
  let r := Slack.send_batch_alerts requests_post slack_notifier alerts posts in
  (success (fst r) + failed (fst r) = List.length alerts)%nat /\
  (posts <= snd r <= posts + 1)%nat.
Proof.
  unfold Slack.send_batch_alerts.
  destruct alerts as [| a rest] eqn:E; [simpl; lia|]. rewrite <- E.
  destruct (Slack.demo_mode slack_notifier); [simpl; lia|].
  cbv zeta. destruct (requests_post _ _ _); simpl; lia.
Qed.

(** A run of the scheduled check texts critical alerts only, each one on
    its own: it makes one SMS request per recipient and critical alert
    (none in demo mode) and never the summary request; Slack gets all
    alerts in at most one post; without alerts nothing is sent. *)
Theorem check_inventory_job_sends (calls posts : nat) :
  let out := Jobs.check_inventory_job uuid4 now messages_create requests_post
               monitor_service twilio_notifier slack_notifier calls posts in
  let critical := filter (severity_is "critical") (Jobs.job_alerts out) in
  Jobs.job_sms_calls out
  = (calls
     + (if Twilio.demo_mode twilio_notifier then 0
        else List.length (Twilio.to_numbers twilio_notifier))
       * List.length critical)%nat /\
  match Jobs.job_sms out with
  | Some counts =>
      critical <> [] /\
      (success counts + failed counts = List.length critical)%nat
  | None => critical = []
  end /\
  match Jobs.job_alerts out with
  | [] => Jobs.job_slack out = None /\ Jobs.job_slack_posts out = posts
  | _ :: _ =>
      exists counts,
        Jobs.job_slack out = Some counts /\
        (success counts + failed counts
         = List.length (Jobs.job_alerts out))%nat /\
        (posts <= Jobs.job_slack_posts out <= posts + 1)%nat
  end.
Proof.
  unfold Jobs.check_inventory_job.
  destruct (fold_left (Jobs.collect_alerts_step uuid4 now monitor_service)
                      Jobs.location_ids (Ok [])) as [all_alerts | e];
    [| simpl; repeat split; lia].
  destruct all_alerts as [| a0 rest0] eqn:Eall; [simpl; repeat split; lia|].
  rewrite <- Eall. cbv zeta.
  destruct (slack_batch_counts all_alerts posts) as [Hs1 Hs2].
  cbv zeta in Hs1, Hs2.
  destruct (Slack.send_batch_alerts requests_post slack_notifier all_alerts
              posts) as [slack posts1].
  simpl in Hs1, Hs2.
  destruct (filter (severity_is "critical") all_alerts) as [| c0 crest]
    eqn:Ecrit.
  - simpl. rewrite Ecrit, Eall. rewrite <- Eall.
    split; [simpl; lia|]. split; [reflexivity|].
    exists slack. repeat split; lia.
  - rewrite <- Ecrit.
    destruct (send_batch_alerts_summary messages_create twilio_notifier
                (filter (severity_is "critical") all_alerts) calls)
      as [Ht1 Ht2].
    cbv zeta in Ht1, Ht2.
    rewrite filter_idempotent, filter_negb_filter in Ht2.
    destruct (Twilio.send_batch_alerts messages_create twilio_notifier
                (filter (severity_is "critical") all_alerts) calls)
      as [sms calls1].
    simpl in Ht1, Ht2. simpl. rewrite Eall. rewrite <- Eall.
    split; [rewrite Ht2; simpl; lia|]. split.
    + split; [rewrite Ecrit; discriminate | exact Ht1].
    + exists slack. repeat split; lia.
Qed.

End InventoryCheckJob.

(** * The classifier and the capacity *)



(** * Further properties of the reorder calculator *)

(** Nothing is suggested without demand, for a product at or above its
    capacity, or when the stock already covers the lead time and the
    safety period. *)
Theorem reorder_quantity_zero_when_covered (velocity : Q)
    (current_stock max_stock lead_time_days safety_stock_days : Z) :
  velocity <= 0 \/ (max_stock <= current_stock)%Z \/
  velocity * inject_Z (lead_time_days + safety_stock_days)
  <= inject_Z current_stock ->
  ForecasterService.calculate_reorder_quantity velocity current_stock
    max_stock lead_time_days safety_stock_days = 0%Z.
Proof.
  intro H. unfold ForecasterService.calculate_reorder_quantity.
  destruct (Qle_bool velocity 0) eqn:Ev; [reflexivity|].
  apply Qle_bool_gt in Ev.
  destruct H as [Hv | H]; [exfalso; lra|].
  cbv zeta.
  set (rq0 := velocity * inject_Z (lead_time_days + safety_stock_days)
              - inject_Z current_stock).
  set (rq := if Py.Qltb (inject_Z max_stock) (inject_Z current_stock + rq0)
             then inject_Z (max_stock - current_stock) else rq0).
  assert (Hrq : rq <= 0).
  { unfold rq.
    destruct (Py.Qltb (inject_Z max_stock) (inject_Z current_stock + rq0))
      eqn:E.
    - apply Qltb_lt in E. destruct H as [Hcap | Hcov].
      + unfold Qle. simpl. lia.
      + unfold Zminus. rewrite inject_Z_plus, inject_Z_opp.
        unfold rq0 in E. lra.
    - apply Qltb_ge in E. destruct H as [Hcap | Hcov].
      + rewrite Zle_Qle in Hcap. lra.
      + unfold rq0. lra. }
  assert (Hneg : Py.Qltb 0 rq = false) by now apply Qltb_ge.
  rewrite Hneg. pose proof (int_nonpos rq Hrq). lia.
Qed.

Lemma reorder_quantity_zero_when_covered_witness :
  ForecasterService.calculate_reorder_quantity 6 120 100 7 7 = 0%Z.
Proof.
  apply reorder_quantity_zero_when_covered. right. left. lia.
Defined.

(** Without demand all three optimal levels are 0; for a non-negative
    lead time and a service level between 0 and 1 they satisfy
    0 <= min_stock <= reorder_point and 0 <= max_stock. *)
Theorem optimal_stock_levels_min_below_reorder_point (velocity : Q)
    (lead_time_days : Z) (service_level : Q) :
  let levels := ForecasterService.calculate_optimal_stock_levels
                  velocity lead_time_days service_level in
  (velocity <= 0 -> levels = ForecasterService.mk_optimal_levels 0 0 0) /\
  ((0 <= lead_time_days)%Z -> 0 <= service_level -> service_level <= 1 ->
   (0 <= ForecasterService.opt_min_stock levels)%Z /\
   (ForecasterService.opt_min_stock levels
    <= ForecasterService.opt_reorder_point levels)%Z /\
   (0 <= ForecasterService.opt_max_stock levels)%Z).
Proof.
  intro levels. subst levels.
  unfold ForecasterService.calculate_optimal_stock_levels.
  destruct (Qle_bool velocity 0) eqn:Ev.
  { split; [reflexivity | simpl; intros; lia]. }
  apply Qle_bool_gt in Ev. split; [intro H; exfalso; lra|].
  intros Hlead Hs0 Hs1. cbn [ForecasterService.opt_min_stock
    ForecasterService.opt_max_stock ForecasterService.opt_reorder_point].
  assert (HL : 0 <= inject_Z lead_time_days) by (unfold Qle; simpl; lia).
  assert (HvL : 0 <= velocity * inject_Z lead_time_days)
    by (apply Qmult_le_0_compat; [lra | exact HL]).
  assert (Hsafety : 0 <= velocity * inject_Z lead_time_days
                         * (1 - service_level))
    by (apply Qmult_le_0_compat; [exact HvL | lra]).
  repeat split.
  - rewrite int_floor_nonneg by exact Hsafety. now apply Qfloor_lower.
  - apply int_monotone_nonneg; [exact Hsafety | lra].
  - rewrite int_floor_nonneg by lra. apply Qfloor_lower.
    change (inject_Z 0) with 0. lra.
Qed.

Lemma optimal_stock_levels_min_below_reorder_point_witness :
  (ForecasterService.opt_min_stock
     (ForecasterService.calculate_optimal_stock_levels 3 7 (95 # 100))
   <= ForecasterService.opt_reorder_point
        (ForecasterService.calculate_optimal_stock_levels 3 7 (95 # 100)))%Z.
Proof.
  apply (optimal_stock_levels_min_below_reorder_point 3 7 (95 # 100)).
  - lia.
  - discriminate.
  - discriminate.
Defined.

(** * The forecaster on doubles *)

Section VelocityOnDoubles.

Variable product_id : string.




End VelocityOnDoubles.




(** Ties of the decimal quotient go the way its double falls: 1 unit over
    40 days and 0.75 units over 30 days give 0.03, 2.25 units over 30 days
    give 0.07. *)
Example calculate_velocity_decimal_ties :
  Binary64.calculate_velocity "item_001" (single_order_history 1) 40
  = Binary64.hundredths 3 /\
  Binary64.calculate_velocity "item_001" (single_order_history (3 # 4)) 30
  = Binary64.hundredths 3 /\
  Binary64.calculate_velocity "item_001" (single_order_history (9 # 4)) 30
  = Binary64.hundredths 7.
Proof. repeat split; vm_compute; reflexivity. Qed.

(** ** Stockout projection *)

Lemma projection_table :
  forallb (fun stock =>
             forallb (fun k => Binary64.projection_near_floor
                                 (Z.of_nat stock) (Z.of_nat (S k)))
                     (seq 0 1000))
          (seq 0 101) = true.
Proof. vm_compute. reflexivity. Qed.

Lemma projection_near_floor_in_range (current_stock k : Z) :
  (0 <= current_stock <= 100)%Z -> (1 <= k <= 1000)%Z ->
  Binary64.projection_near_floor current_stock k = true.
Proof.
  intros Hstock Hk. pose proof projection_table as Htable.
  rewrite forallb_forall in Htable.
  specialize (Htable (Z.to_nat current_stock)).
  rewrite forallb_forall in Htable.
  specialize (Htable ltac:(apply in_seq; lia) (Z.to_nat (k - 1))).
  replace (Z.of_nat (S (Z.to_nat (k - 1)))) with k in Htable by lia.
  rewrite Z2Nat.id in Htable by lia.
  apply Htable. apply in_seq. lia.
Qed.

(** C8, as stated, fails: with 1 unit in stock and velocity 0.1 the code
    returns 10, while the double 0.1 lies above one tenth and the floor of
    the exact quotient is 9; with 7 units in stock and 2 units sold in 30
    days the velocity is 0.07 and the code returns 99, not 100; and with 2
    units in stock and the smallest positive velocity the quotient
    overflows and [int()] raises. *)
Lemma days_until_stockout_is_not_the_exact_floor :
  (exists tenth : Q,
     Binary64.value (Binary64.of_decimal (1 # 10)) = Some tenth /\
     0 < tenth /\
     Binary64.calculate_days_until_stockout 1 (Binary64.of_decimal (1 # 10))
     = Binary64.Returns (Some 10%Z) /\
     Qfloor (inject_Z 1 / tenth) = 9%Z) /\
  Binary64.calculate_velocity "item_001" (single_order_history 2) 30
  = Binary64.hundredths 7 /\
  Binary64.calculate_days_until_stockout 7 (Binary64.hundredths 7)
  = Binary64.Returns (Some 99%Z) /\
  Qfloor (inject_Z 7 / (7 # 100)) = 100%Z /\
  PrimFloat.leb Binary64.smallest_positive PrimFloat.zero = false /\
  Binary64.calculate_days_until_stockout 2 Binary64.smallest_positive
  = Binary64.Raises.
Proof.
  split; [eexists; split; [vm_compute; reflexivity|] |];
    repeat split; vm_compute; reflexivity.
Qed.

(** C8, amended: [calculate_days_until_stockout], computed on doubles,
    returns the undefined value exactly when velocity <= 0; otherwise it
    returns the integer part (truncation toward zero, the floor for a
    quotient that is not negative) of the double quotient
    current_stock / velocity when that is finite, and raises when it is
    not; for stocks up to 100 and velocities from 0.01 to 10.00 the result
    is the floor of the exact quotient or one more; a stock of 20 at
    velocity 5.0 lasts 4 days. *)
Theorem days_until_stockout_floor_of_double_quotient :
  (forall (current_stock : Z) (velocity : float),
     Binary64.calculate_days_until_stockout current_stock velocity
     = Binary64.Returns None
     <-> PrimFloat.leb velocity PrimFloat.zero = true) /\
  (forall (current_stock : Z) (velocity : float) (q : Q),
     Binary64.in_range current_stock ->
     PrimFloat.leb velocity PrimFloat.zero = false ->
     Binary64.value (PrimFloat.div (Binary64.of_int current_stock) velocity)
     = Some q ->
     Binary64.calculate_days_until_stockout current_stock velocity
     = Binary64.Returns (Some (Py.int q)) /\
     (0 <= q ->
      Binary64.calculate_days_until_stockout current_stock velocity
      = Binary64.Returns (Some (Qfloor q)))) /\
  (forall (current_stock : Z) (velocity : float),
     Binary64.in_range current_stock ->
     PrimFloat.leb velocity PrimFloat.zero = false ->
     Binary64.value (PrimFloat.div (Binary64.of_int current_stock) velocity)
     = None ->
     Binary64.calculate_days_until_stockout current_stock velocity
     = Binary64.Raises) /\
  (forall current_stock k : Z,
     (0 <= current_stock <= 100)%Z -> (1 <= k <= 1000)%Z ->
     exists (d : Z) (v : Q),
       Binary64.calculate_days_until_stockout current_stock
         (Binary64.hundredths k) = Binary64.Returns (Some d) /\
       Binary64.value (Binary64.hundredths k) = Some v /\
       (Qfloor (inject_Z current_stock / v) <= d
        <= Qfloor (inject_Z current_stock / v) + 1)%Z) /\
  Binary64.calculate_days_until_stockout 20 (Binary64.of_int 5)
  = Binary64.Returns (Some 4%Z).
Proof.
  split; [| split; [| split; [| split; [| vm_compute; reflexivity]]]].
  - intros current_stock velocity.
    unfold Binary64.calculate_days_until_stockout.
    destruct (PrimFloat.leb velocity PrimFloat.zero); [tauto|].
    cbv zeta. destruct (Binary64.int _); split; discriminate.
  - intros current_stock velocity q _ Hpos Hvalue.
    unfold Binary64.calculate_days_until_stockout, Binary64.int.
    rewrite Hpos. cbv zeta. rewrite Hvalue. cbn [option_map].
    split; [reflexivity|]. intro Hq. now rewrite int_floor_nonneg.
  - intros current_stock velocity _ Hpos Hvalue.
    unfold Binary64.calculate_days_until_stockout, Binary64.int.
    rewrite Hpos. cbv zeta. rewrite Hvalue. reflexivity.
  - intros current_stock k Hstock Hk.
    pose proof (projection_near_floor_in_range current_stock k Hstock Hk)
      as Hnear.
    unfold Binary64.projection_near_floor in Hnear. cbv zeta in Hnear.
    destruct (Binary64.calculate_days_until_stockout current_stock
                (Binary64.hundredths k)) as [[d |] |]; try discriminate.
    destruct (Binary64.value (Binary64.hundredths k)) as [v |];
      try discriminate.
    exists d, v. apply andb_prop in Hnear. destruct Hnear as [H1 H2].
    apply Z.leb_le in H1. apply Z.leb_le in H2.
    repeat split; assumption.
Qed.

Lemma days_until_stockout_floor_of_double_quotient_witness :
  Binary64.calculate_days_until_stockout 49 (Binary64.of_int 10)
  = Binary64.Returns (Some 4%Z).
Proof.
  destruct days_until_stockout_floor_of_double_quotient as [_ [H _]].
  destruct (H 49%Z (Binary64.of_int 10)
              (5516909543528858 # 1125899906842624)) as [_ Hfloor].
  - reflexivity.
  - vm_compute. reflexivity.
  - vm_compute. reflexivity.
  - rewrite Hfloor; [reflexivity | discriminate].
Defined.
